(** * KeyEventManager: the singleton that routes key events to the two
      key-event strategies

    A shallow embedding of [src/lib/KeyEventManager.js].  JavaScript values
    are a small tagged union, plain objects live in a heap of property
    tables, and every method is a function in a state-and-exception monad.
    The collaborators the manager imports ([Logger],
    [FocusOnlyKeyEventStrategy], [GlobalKeyEventStrategy] and
    [isFromFocusOnlyComponent]) are an interface, [Collaborators]: every
    statement below holds for all of its implementations. *)

From Stdlib Require Import ZArith FunctionalExtensionality.
From stdpp Require Import base option strings gmap fin_maps list.

Local Open Scope string_scope.
Local Open Scope list_scope.

(** ** JavaScript values, objects and property reads *)

Module Js.

Definition loc := positive.

(** Numbers are kept to the integers: [NaN], fractions and infinities
    play no part in the manager. *)
Inductive value : Type :=
| VUndefined
| VNull
| VBool (b : bool)
| VNumber (n : Z)
| VString (s : string)
| VObject (l : loc).

Arguments VObject l%_positive.

#[global] Instance value_eq_dec : EqDecision value.
Proof. solve_decision. Defined.

(** [a === b]: primitives by value, objects by reference. *)
Definition strict_equals (a b : value) : bool := bool_decide (a = b).

(** [ToBoolean], as used by [if], [!] and [||]. *)
Definition truthy (v : value) : bool :=
  match v with
  | VUndefined | VNull => false
  | VBool b => b
  | VNumber n => negb (n =? 0)%Z
  | VString s => negb (String.eqb s "")
  | VObject _ => true
  end.

Inductive error : Type :=
| TypeError
| Thrown (v : value).

Inductive outcome (A : Type) : Type :=
| Return (a : A)
| Throw (e : error).
Arguments Return {A} a.
Arguments Throw {A} e.

Abbreviation object := (gmap string value).
Abbreviation Heap := (gmap loc (gmap string value)).

(** [v.p] / destructuring [{p} = v].  Reading a property of [undefined]
    or [null] throws; a property an object does not have is [undefined];
    the names read by the manager ([key], [type], [nativeEvent],
    [handled], [logger]) exist on no primitive wrapper. *)
Definition get (h : Heap) (v : value) (p : string) : outcome value :=
  match v with
  | VUndefined | VNull => Throw TypeError
  | VObject l => Return (default VUndefined (h !! l ≫= (λ o : object, o !! p)))
  | VBool _ | VNumber _ | VString _ => Return VUndefined
  end.

(** An object literal: a new location holding the given properties. *)
Definition alloc (o : object) (h : Heap) : value * Heap :=
  let l := fresh (dom h) in (VObject l, <[l := o]> h).

(** A parameter default [p = {}]: only [undefined] is replaced. *)
Definition default_empty_object (v : value) (h : Heap) : value * Heap :=
  match v with
  | VUndefined => alloc ∅ h
  | _ => (v, h)
  end.

(** *** State and exception monad *)

Definition M (S A : Type) : Type := S → outcome A * S.

Definition ret {S A} (a : A) : M S A := λ s, (Return a, s).

Definition bind {S A B} (m : M S A) (k : A → M S B) : M S B :=
  λ s, match m s with
       | (Return a, s') => k a s'
       | (Throw e, s') => (Throw e, s')
       end.

(** A step that cannot fail. *)
Definition total {S A} (f : S → A * S) : M S A :=
  λ s, let '(a, s') := f s in (Return a, s').

(** A step that reads the state and may fail. *)
Definition reading {S A} (f : S → outcome A) : M S A := λ s, (f s, s).

End Js.

Import Js.

Notation "'let*' x ':=' m 'in' k" := (bind m (λ x, k))
  (at level 10, x pattern, m at level 100, k at level 200).
Notation "m ';;' k" := (bind m (λ _, k))
  (at level 100, k at level 200, right associativity).

(** ** The collaborators *)

(** The six methods a key-event strategy offers to the manager. *)
Inductive Method : Type :=
| AddHotKeys | UpdateHotKeys | RemoveHotKeys
| HandleKeydown | HandleKeypress | HandleKeyup.

#[global] Instance Method_eq_dec : EqDecision Method.
Proof. solve_decision. Defined.

Definition ManagerRef := positive.

(** What the manager's back reference lets the global strategy ask:
    [keyEventManager.reactAppHistoryWithEvent(key, type)] on the heap of
    the moment. *)
Definition HistoryOracle : Type := Heap → value → value → outcome value.

(** The imports of [KeyEventManager.js].  A strategy is an object with a
    state of its own; a call to one of its methods may change that state,
    read and write the heap, and return or throw.  Constructors return. *)
Record Collaborators : Type := {
  FocusOnly : Type;
  Global : Type;
  isFromFocusOnlyComponent : value → bool;
  Logger_new : value → Heap → value * Heap;
  FocusOnly_new : value → Heap → FocusOnly * Heap;
  FocusOnly_call :
    Method → list value → FocusOnly → Heap → outcome value * FocusOnly * Heap;
  FocusOnly_currentEvent : FocusOnly → value;
  Global_new : value → ManagerRef → Heap → Global * Heap;
  Global_call :
    HistoryOracle → Method → list value → Global → Heap →
    outcome value * Global * Heap
}.

(** A call that left the manager, in the order it was made. *)
Inductive Call : Type :=
| CallClassifier (focusTreeId : value)
| CallFocusOnly (method : Method) (args : list value)
| CallGlobal (method : Method) (args : list value).

Definition is_focus_call (c : Call) : bool :=
  match c with CallFocusOnly _ _ => true | _ => false end.
Definition is_classifier_call (c : Call) : bool :=
  match c with CallClassifier _ => true | _ => false end.

Section Manager.

Variable C : Collaborators.

(** [{key, type, nativeEvent}], the object [_recordLastSeenEvent] builds.
    Nothing but [lastEventSeen] refers to it, so it is kept by value. *)
Record LastEvent : Type := {
  key : value;
  type : value;
  nativeEvent : value
}.

(** The fields of a [KeyEventManager] instance; [lastEventSeen = None] is
    [null]. *)
Record KeyEventManager : Type := {
  logger : value;
  focusOnlyEventStrategy : FocusOnly C;
  globalEventStrategy : Global C;
  lastEventSeen : option LastEvent
}.

Definition set_focusOnlyEventStrategy (f : FocusOnly C) (m : KeyEventManager) :=
  {| logger := logger m; focusOnlyEventStrategy := f;
     globalEventStrategy := globalEventStrategy m;
     lastEventSeen := lastEventSeen m |}.

Definition set_globalEventStrategy (g : Global C) (m : KeyEventManager) :=
  {| logger := logger m; focusOnlyEventStrategy := focusOnlyEventStrategy m;
     globalEventStrategy := g; lastEventSeen := lastEventSeen m |}.

Definition set_lastEventSeen (e : option LastEvent) (m : KeyEventManager) :=
  {| logger := logger m; focusOnlyEventStrategy := focusOnlyEventStrategy m;
     globalEventStrategy := globalEventStrategy m; lastEventSeen := e |}.

(** What an instance method runs in: its receiver, the heap, and the
    calls made to the collaborators so far. *)
Record state : Type := {
  this : KeyEventManager;
  heap : Heap;
  calls : list Call
}.

Definition with_this (f : KeyEventManager → KeyEventManager) (s : state) :=
  {| this := f (this s); heap := heap s; calls := calls s |}.

(** *** Primitive steps *)

Definition on_heap {A} (m : M Heap A) : M state A :=
  λ s, let '(r, h) := m (heap s) in
       (r, {| this := this s; heap := h; calls := calls s |}).

Definition getProp (v : value) (p : string) : M state value :=
  reading (λ s, get (heap s) v p).

Definition call_isFromFocusOnlyComponent (focusTreeId : value) : M state bool :=
  λ s, (Return (isFromFocusOnlyComponent C focusTreeId),
        {| this := this s; heap := heap s;
           calls := calls s ++ [CallClassifier focusTreeId] |}).

(** [this.focusOnlyEventStrategy.<method>(...args)] *)
Definition call_focusOnly (method : Method) (args : list value) : M state value :=
  λ s, let '(r, f, h) :=
         FocusOnly_call C method args (focusOnlyEventStrategy (this s)) (heap s) in
       (r, {| this := set_focusOnlyEventStrategy f (this s); heap := h;
              calls := calls s ++ [CallFocusOnly method args] |}).

(** *** The history query *)

Definition reactAppHistoryWithEvent (key type : value) : M state value :=
  let* currentEvent :=
    reading (λ s, Return (FocusOnly_currentEvent C (focusOnlyEventStrategy (this s)))) in
  let* k := getProp currentEvent "key" in
  if strict_equals k key then
    let* t := getProp currentEvent "type" in
    if strict_equals t type then
      let* handled := getProp currentEvent "handled" in
      if truthy handled then ret (VString "handled")
      else ret (VString "seen")
    else ret (VString "unseen")
  else ret (VString "unseen").

(** The manager as the global strategy sees it through its back
    reference. *)
Definition history_oracle (m : KeyEventManager) : HistoryOracle :=
  λ h key type,
    fst (reactAppHistoryWithEvent key type {| this := m; heap := h; calls := [] |}).

(** [this.globalEventStrategy.<method>(...args)] *)
Definition call_global (method : Method) (args : list value) : M state value :=
  λ s, let '(r, g, h) :=
         Global_call C (history_oracle (this s)) method args
           (globalEventStrategy (this s)) (heap s) in
       (r, {| this := set_globalEventStrategy g (this s); heap := h;
              calls := calls s ++ [CallGlobal method args] |}).

(** *** Focus key events *)

Definition addHotKeys
    (actionNameToKeyMap actionNameToHandlersMap options : value) : M state value :=
  let* actionNameToKeyMap := on_heap (total (default_empty_object actionNameToKeyMap)) in
  let* actionNameToHandlersMap :=
    on_heap (total (default_empty_object actionNameToHandlersMap)) in
  call_focusOnly AddHotKeys
    [actionNameToKeyMap; actionNameToHandlersMap; options].

Definition updateHotKeys
    (focusTreeId componentId actionNameToKeyMap actionNameToHandlersMap
     options : value) : M state value :=
  let* actionNameToKeyMap := on_heap (total (default_empty_object actionNameToKeyMap)) in
  let* actionNameToHandlersMap :=
    on_heap (total (default_empty_object actionNameToHandlersMap)) in
  call_focusOnly UpdateHotKeys
    [focusTreeId; componentId; actionNameToKeyMap; actionNameToHandlersMap;
     options].

Definition removeHotKeys (focusTreeId componentId : value) : M state value :=
  call_focusOnly RemoveHotKeys [focusTreeId; componentId].

(** The parameter is the pattern [{key, type, nativeEvent}]. *)
Definition _recordLastSeenEvent (event : value) : M state value :=
  let* key := getProp event "key" in
  let* type := getProp event "type" in
  let* nativeEvent := getProp event "nativeEvent" in
  λ s, (Return VUndefined,
        with_this
          (set_lastEventSeen
             (Some {| key := key; type := type; nativeEvent := nativeEvent |}))
          s).

Definition handleKeydown
    (event focusTreeId componentId options : value) : M state value :=
  let* fromFocusOnly := call_isFromFocusOnlyComponent focusTreeId in
  if fromFocusOnly : bool then
    call_focusOnly HandleKeydown [event; focusTreeId; componentId; options]
  else
    _recordLastSeenEvent event ;; ret VUndefined.

Definition handleKeypress
    (event focusTreeId componentId options : value) : M state value :=
  let* fromFocusOnly := call_isFromFocusOnlyComponent focusTreeId in
  if fromFocusOnly : bool then
    call_focusOnly HandleKeypress [event; focusTreeId; componentId; options]
  else
    _recordLastSeenEvent event ;; ret VUndefined.

Definition handleKeyup
    (event focusTreeId componentId options : value) : M state value :=
  let* fromFocusOnly := call_isFromFocusOnlyComponent focusTreeId in
  if fromFocusOnly : bool then
    call_focusOnly HandleKeyup [event; focusTreeId; componentId; options]
  else
    _recordLastSeenEvent event ;; ret VUndefined.

(** *** Global key events *)

Definition addGlobalHotKeys
    (actionNameToKeyMap actionNameToHandlersMap options eventOptions : value)
    : M state value :=
  let* actionNameToKeyMap := on_heap (total (default_empty_object actionNameToKeyMap)) in
  let* actionNameToHandlersMap :=
    on_heap (total (default_empty_object actionNameToHandlersMap)) in
  call_global AddHotKeys
    [actionNameToKeyMap; actionNameToHandlersMap; options; eventOptions].

Definition updateGlobalHotKeys
    (componentId actionNameToKeyMap actionNameToHandlersMap options
     eventOptions : value) : M state value :=
  let* actionNameToKeyMap := on_heap (total (default_empty_object actionNameToKeyMap)) in
  let* actionNameToHandlersMap :=
    on_heap (total (default_empty_object actionNameToHandlersMap)) in
  call_global UpdateHotKeys
    [componentId; actionNameToKeyMap; actionNameToHandlersMap; options;
     eventOptions].

Definition removeGlobalHotKeys (componentId : value) : M state value :=
  call_global RemoveHotKeys [componentId].

Definition handleGlobalKeydown (event : value) : M state value :=
  call_global HandleKeydown [event].

Definition handleGlobalKeypress (event : value) : M state value :=
  call_global HandleKeypress [event].

Definition handleGlobalKeyup (event : value) : M state value :=
  call_global HandleKeyup [event].

(** *** The singleton *)

(** [constructor(configuration = {})], run on the reference [self] that
    [new] has just made. *)
Definition new_KeyEventManager (self : ManagerRef) (configuration : value)
    : M Heap KeyEventManager :=
  let* configuration := total (default_empty_object configuration) in
  let* given := reading (λ h, get h configuration "logger") in
  let* logger :=
    (if truthy given then ret given
     else total (Logger_new C (VString "warn"))) in
  let* focusOptions :=
    total (alloc {[ "configuration" := configuration; "logger" := logger ]}) in
  let* focusOnly := total (FocusOnly_new C focusOptions) in
  let* globalOptions :=
    total (alloc {[ "configuration" := configuration; "logger" := logger ]}) in
  let* global := total (Global_new C globalOptions self) in
  ret {| logger := logger;
         focusOnlyEventStrategy := focusOnly;
         globalEventStrategy := global;
         lastEventSeen := None |}.

(** The class itself: its static [instance] property, every instance
    made so far, and the heap. *)
Record World : Type := {
  instance : option ManagerRef;
  managers : gmap ManagerRef KeyEventManager;
  store : Heap
}.

Definition getInstance (configuration : value) : M World ManagerRef :=
  λ w,
    let '(configuration, h) := default_empty_object configuration (store w) in
    match instance w with
    | Some i =>
        (Return i, {| instance := Some i; managers := managers w; store := h |})
    | None =>
        let self := fresh (dom (managers w)) in
        match new_KeyEventManager self configuration h with
        | (Return m, h') =>
            (Return self,
             {| instance := Some self;
                managers := <[self := m]> (managers w);
                store := h' |})
        | (Throw e, h') =>
            (Throw e,
             {| instance := None; managers := managers w; store := h' |})
        end
    end.

Definition clear : M World value :=
  λ w, (Return VUndefined,
        {| instance := None; managers := managers w; store := store w |}).

(** [ref.method(...)] for an instance method run from outside. *)
Definition invoke {A} (ref : ManagerRef) (method : M state A) : M World A :=
  λ w, match managers w !! ref with
       | None => (Throw TypeError, w)
       | Some m =>
           let '(r, s) := method {| this := m; heap := store w; calls := [] |} in
           (r, {| instance := instance w;
                  managers := <[ref := this s]> (managers w);
                  store := heap s |})
       end.

End Manager.

Arguments logger {C} _.
Arguments focusOnlyEventStrategy {C} _.
Arguments globalEventStrategy {C} _.
Arguments lastEventSeen {C} _.
Arguments this {C} _.
Arguments heap {C} _.
Arguments calls {C} _.
Arguments instance {C} _.
Arguments managers {C} _.
Arguments store {C} _.

(** ** Vocabulary of the statements *)

Definition nullish (v : value) : bool :=
  match v with VUndefined | VNull => true | _ => false end.

(** The value a property read yields where it does not throw. *)
Definition field (h : Heap) (v : value) (p : string) : value :=
  match get h v p with Return x => x | Throw _ => VUndefined end.

Section Statements.

Variable C : Collaborators.

Definition currentEvent (s : state C) : value :=
  FocusOnly_currentEvent C (focusOnlyEventStrategy (this s)).

(** [res] is what [this.focusOnlyEventStrategy.method(...args)] gives
    when run on the heap [h]: its result, the strategy it leaves behind
    and its heap, everything else of the manager as it is in [s]. *)
Definition forwards_to_focusOnly (method : Method) (args : list value)
    (h : Heap) (s : state C) (res : outcome value * state C) : Prop :=
  let run := FocusOnly_call C method args (focusOnlyEventStrategy (this s)) h in
  res.1 = run.1.1 ∧
  focusOnlyEventStrategy (this res.2) = run.1.2 ∧
  heap res.2 = run.2 ∧
  globalEventStrategy (this res.2) = globalEventStrategy (this s) ∧
  logger (this res.2) = logger (this s) ∧
  lastEventSeen (this res.2) = lastEventSeen (this s).

(** The same for [this.globalEventStrategy.method(...args)]. *)
Definition forwards_to_global (method : Method) (args : list value)
    (h : Heap) (s : state C) (res : outcome value * state C) : Prop :=
  let run :=
    Global_call C (history_oracle C (this s)) method args
      (globalEventStrategy (this s)) h in
  res.1 = run.1.1 ∧
  globalEventStrategy (this res.2) = run.1.2 ∧
  heap res.2 = run.2 ∧
  focusOnlyEventStrategy (this res.2) = focusOnlyEventStrategy (this s) ∧
  logger (this res.2) = logger (this s) ∧
  lastEventSeen (this res.2) = lastEventSeen (this s).

(** The state after [_recordLastSeenEvent(event)] following a negative
    answer of the classifier: one call, to the classifier, and a new
    [lastEventSeen]; strategies and heap as they were. *)
Definition recorded (event focusTreeId : value) (s : state C) : state C :=
  {| this :=
       {| logger := logger (this s);
          focusOnlyEventStrategy := focusOnlyEventStrategy (this s);
          globalEventStrategy := globalEventStrategy (this s);
          lastEventSeen :=
            Some {| key := field (heap s) event "key";
                    type := field (heap s) event "type";
                    nativeEvent := field (heap s) event "nativeEvent" |} |};
     heap := heap s;
     calls := calls s ++ [CallClassifier focusTreeId] |}.

(** What a parameter default [p = {}] makes of the argument [given] on
    the heap [h]: an omitted argument becomes a reference to a new object
    without properties, any other argument is passed as it is. *)
Definition defaulted (given : value) (h : Heap) (passed : value) (h' : Heap)
    : Prop :=
  match given with
  | VUndefined => ∃ l, passed = VObject l ∧ h !! l = None ∧ h' = <[l := ∅]> h
  | _ => passed = given ∧ h' = h
  end.

(** The static [instance], when set, is one of the instances made. *)
Definition well_formed (w : World C) : Prop :=
  ∀ i, instance w = Some i → is_Some (managers w !! i).

(** The world before any call: no instance, nothing on the heap. *)
Definition initial_world : World C :=
  {| instance := None; managers := ∅; store := ∅ |}.

(** The instance [m] came out of the constructor: both strategies are
    what their constructors return, and nothing has been seen. *)
Definition freshly_constructed (self : ManagerRef) (m : KeyEventManager C)
    : Prop :=
  lastEventSeen m = None ∧
  (∃ options h, focusOnlyEventStrategy m = (FocusOnly_new C options h).1) ∧
  (∃ options h, globalEventStrategy m = (Global_new C options self h).1).

(** The instance methods open to the hosting layer, with their
    arguments. *)
Inductive Operation : Type :=
| Op_addHotKeys (actionNameToKeyMap actionNameToHandlersMap options : value)
| Op_updateHotKeys
    (focusTreeId componentId actionNameToKeyMap actionNameToHandlersMap
     options : value)
| Op_removeHotKeys (focusTreeId componentId : value)
| Op_handleKeydown (event focusTreeId componentId options : value)
| Op_handleKeypress (event focusTreeId componentId options : value)
| Op_handleKeyup (event focusTreeId componentId options : value)
| Op_addGlobalHotKeys
    (actionNameToKeyMap actionNameToHandlersMap options eventOptions : value)
| Op_updateGlobalHotKeys
    (componentId actionNameToKeyMap actionNameToHandlersMap options
     eventOptions : value)
| Op_removeGlobalHotKeys (componentId : value)
| Op_handleGlobalKeydown (event : value)
| Op_handleGlobalKeypress (event : value)
| Op_handleGlobalKeyup (event : value)
| Op_reactAppHistoryWithEvent (key type : value).

Definition perform (op : Operation) : M (state C) value :=
  match op with
  | Op_addHotKeys a h o => addHotKeys C a h o
  | Op_updateHotKeys f c a h o => updateHotKeys C f c a h o
  | Op_removeHotKeys f c => removeHotKeys C f c
  | Op_handleKeydown e f c o => handleKeydown C e f c o
  | Op_handleKeypress e f c o => handleKeypress C e f c o
  | Op_handleKeyup e f c o => handleKeyup C e f c o
  | Op_addGlobalHotKeys a h o eo => addGlobalHotKeys C a h o eo
  | Op_updateGlobalHotKeys c a h o eo => updateGlobalHotKeys C c a h o eo
  | Op_removeGlobalHotKeys c => removeGlobalHotKeys C c
  | Op_handleGlobalKeydown e => handleGlobalKeydown C e
  | Op_handleGlobalKeypress e => handleGlobalKeypress C e
  | Op_handleGlobalKeyup e => handleGlobalKeyup C e
  | Op_reactAppHistoryWithEvent k t => reactAppHistoryWithEvent C k t
  end.

(** A [handle*] call whose [focusTreeId] the classifier turns down. *)
Definition handles_outside_focus (op : Operation) : bool :=
  match op with
  | Op_handleKeydown _ f _ _ | Op_handleKeypress _ f _ _
  | Op_handleKeyup _ f _ _ => negb (isFromFocusOnlyComponent C f)
  | _ => false
  end.

Definition is_history_query (op : Operation) : bool :=
  match op with Op_reactAppHistoryWithEvent _ _ => true | _ => false end.

(** The focus-only strategy in [s'] is the one in [s], or the one a
    method of the strategy itself made of it. *)
Definition focusOnly_changed_by_itself (s s' : state C) : Prop :=
  focusOnlyEventStrategy (this s') = focusOnlyEventStrategy (this s) ∨
  ∃ method args h,
    focusOnlyEventStrategy (this s')
    = (FocusOnly_call C method args (focusOnlyEventStrategy (this s)) h).1.2.

End Statements.

(** ** An implementation to run the manager with *)

(** A small implementation of the interface, to run the manager with.  Its
    focus-only strategy is nothing but its [currentEvent]; a [handle*] call
    replaces that by [{key, type, handled: true}] taken from the event.  Its
    global strategy counts the calls it gets. *)
Module Sample.

Definition focusOnly_call (method : Method) (args : list value)
    (currentEvent : value) (h : Heap) : outcome value * value * Heap :=
  match method, args with
  | (HandleKeydown | HandleKeypress | HandleKeyup), event :: _ =>
      let '(o, h') :=
        alloc {[ "key" := field h event "key";
                 "type" := field h event "type";
                 "handled" := VBool true ]} h in
      (Return (VBool true), o, h')
  | AddHotKeys, _ => (Return (VNumber 0), currentEvent, h)
  | RemoveHotKeys, _ => (Return (VBool false), currentEvent, h)
  | _, _ => (Return VUndefined, currentEvent, h)
  end.

Definition global_call (_ : HistoryOracle) (method : Method)
    (args : list value) (n : nat) (h : Heap) : outcome value * nat * Heap :=
  match method with
  | AddHotKeys => (Return (VNumber (Z.of_nat n)), S n, h)
  | RemoveHotKeys => (Return (VBool true), S n, h)
  | _ => (Return VUndefined, S n, h)
  end.

Definition collaborators : Collaborators :=
  {| FocusOnly := value;
     Global := nat;
     isFromFocusOnlyComponent v := negb (strict_equals v VUndefined);
     Logger_new level h := alloc {[ "logLevel" := level ]} h;
     FocusOnly_new _ h :=
       alloc {[ "key" := VNull; "type" := VNull; "handled" := VBool false ]} h;
     FocusOnly_call := focusOnly_call;
     FocusOnly_currentEvent ce := ce;
     Global_new _ _ h := (0, h);
     Global_call := global_call |}.

(** A manager whose focus-only strategy has the given [currentEvent]. *)
Definition manager (currentEvent : value) : KeyEventManager collaborators :=
  {| logger := VNull;
     focusOnlyEventStrategy := currentEvent : FocusOnly collaborators;
     globalEventStrategy := 0 : Global collaborators;
     lastEventSeen := None |}.

(** Object 1 is the key event [a] going down, object 2 its native event,
    objects 3 and 4 a [currentEvent] for the same key, handled and not. *)
Definition objects : Heap :=
  {[ 1%positive :=
       {[ "key" := VString "a"; "type" := VString "keydown";
          "nativeEvent" := VObject 2 ]};
     2%positive := {[ "keyCode" := VNumber 65 ]};
     3%positive :=
       {[ "key" := VString "a"; "type" := VString "keydown";
          "handled" := VBool true ]};
     4%positive :=
       {[ "key" := VString "a"; "type" := VString "keydown";
          "handled" := VBool false ]} ]}.

Definition running (currentEvent : value) : state collaborators :=
  {| this := manager currentEvent; heap := objects; calls := [] |}.

End Sample.

Definition sample_world : World Sample.collaborators :=
  (getInstance Sample.collaborators VUndefined (initial_world Sample.collaborators)).2.

(** ** What reaches a strategy *)

(** The heap [h] is [h0] with nothing but new empty objects added: every
    object of [h0] is in [h] as it was. *)
Definition extends_with_empty_objects (h0 h : Heap) : Prop :=
  ∀ l, h !! l = h0 !! l ∨ (h0 !! l = None ∧ h !! l = Some ∅).

Section Frame.

Variable C : Collaborators.

(** All that an operation changes besides [lastEventSeen] and the trace
    of calls.  The history query changes nothing.  A [handle*] that the
    classifier turns down leaves both strategies, the logger and the heap.
    Any other operation is one call of one strategy, run on the heap of the
    caller with at most new empty objects added; strategies and heap
    afterwards are what that call made of them. *)
Definition changed_by_one_strategy_call (op : Operation) (s : state C)
    (res : outcome value * state C) : Prop :=
  if is_history_query op then res.2 = s
  else if handles_outside_focus C op then
    focusOnlyEventStrategy (this res.2) = focusOnlyEventStrategy (this s) ∧
    globalEventStrategy (this res.2) = globalEventStrategy (this s) ∧
    logger (this res.2) = logger (this s) ∧
    heap res.2 = heap s
  else
    ∃ method args h,
      extends_with_empty_objects (heap s) h ∧
      (forwards_to_focusOnly C method args h s res ∨
       forwards_to_global C method args h s res).

End Frame.

(** ** Sequences of calls *)

Definition is_global_call (c : Call) : bool :=
  match c with CallGlobal _ _ => true | _ => false end.

(** The event argument of a [handle*] call on the focus side. *)
Definition handled_event (op : Operation) : option value :=
  match op with
  | Op_handleKeydown e _ _ _ | Op_handleKeypress e _ _ _
  | Op_handleKeyup e _ _ _ => Some e
  | _ => None
  end.

(** The calls an operation may add to the trace: one to the focus-only
    strategy for a registration on the focus side; the classifier and then
    at most one call to the focus-only strategy for a [handle*]; one to the
    global strategy on the global side; none for the history query. *)
Definition call_shape (op : Operation) (new : list Call) : Prop :=
  match op with
  | Op_addHotKeys _ _ _ | Op_updateHotKeys _ _ _ _ _ | Op_removeHotKeys _ _ =>
      ∃ method args, new = [CallFocusOnly method args]
  | Op_handleKeydown _ f _ _ | Op_handleKeypress _ f _ _
  | Op_handleKeyup _ f _ _ =>
      new = [CallClassifier f] ∨
      ∃ method args, new = [CallClassifier f; CallFocusOnly method args]
  | Op_addGlobalHotKeys _ _ _ _ | Op_updateGlobalHotKeys _ _ _ _ _
  | Op_removeGlobalHotKeys _ | Op_handleGlobalKeydown _
  | Op_handleGlobalKeypress _ | Op_handleGlobalKeyup _ =>
      ∃ method args, new = [CallGlobal method args]
  | Op_reactAppHistoryWithEvent _ _ => new = []
  end.

Section Sequences.

Variable C : Collaborators.

(** What the hosting layer can do with the class: ask for the instance,
    clear it, or call a method of an instance it holds. *)
Inductive Action : Type :=
| Act_getInstance (configuration : value)
| Act_clear
| Act_invoke (ref : ManagerRef) (op : Operation).

Definition step (w : World C) (a : Action) : World C :=
  match a with
  | Act_getInstance configuration => (getInstance C configuration w).2
  | Act_clear => (clear C w).2
  | Act_invoke ref op => (invoke C ref (perform C op) w).2
  end.

Definition run (actions : list Action) (w : World C) : World C :=
  foldl step w actions.

(** A method call on the instance [ref]. *)
Definition calls_on (ref : ManagerRef) (a : Action) : bool :=
  match a with
  | Act_invoke r _ => bool_decide (r = ref)
  | _ => false
  end.

End Sequences.

(** ** Independence of [lastEventSeen] *)

Section Independence.

Variable C : Collaborators.

(** Two states that differ in [lastEventSeen] at most. *)
Definition same_but_lastEventSeen (s1 s2 : state C) : Prop :=
  focusOnlyEventStrategy (this s1) = focusOnlyEventStrategy (this s2) ∧
  globalEventStrategy (this s1) = globalEventStrategy (this s2) ∧
  logger (this s1) = logger (this s2) ∧
  heap s1 = heap s2 ∧
  calls s1 = calls s2.

(** A computation that does not read [lastEventSeen]: from two such
    states it gives the same outcome and two such states again. *)
Definition blind_to_lastEventSeen {A} (m : M (state C) A) : Prop :=
  ∀ s1 s2, same_but_lastEventSeen s1 s2 →
    (m s1).1 = (m s2).1 ∧ same_but_lastEventSeen (m s1).2 (m s2).2.

End Independence.

(** ** MockSyntheticEvent *)

(** An object in the heap is the table of its own enumerable properties,
    which is what [Object.assign] copies. *)
Section MockSyntheticEvent.

(** [simulant(type, options)] of the [simulant] package: it makes a native
    event, given here by its reference, or throws. *)
Variable simulant : value → value → Heap → outcome loc * Heap.

(** [target.p = v] *)
Definition set_prop (target : loc) (p : string) (v : value) (h : Heap) : Heap :=
  <[target := <[p := v]> (default ∅ (h !! target))]> h.

(** [Object.assign(target, source)] for a source that is an object: each
    property of the source is set on the target. *)
Definition Object_assign (target source : loc) (h : Heap) : Heap :=
  <[target := default ∅ (h !! source) ∪ default ∅ (h !! target)]> h.

(** [new MockSyntheticEvent(keyevent, options)] *)
Definition new_MockSyntheticEvent (keyevent options : value) : M Heap value :=
  λ h,
    let this := fresh (dom h) in
    match simulant keyevent options (<[this := ∅]> h) with
    | (Return native, h') =>
        (Return (VObject this),
         Object_assign this native
           (set_prop this "nativeEvent" (VObject native) h'))
    | (Throw e, h') => (Throw e, h')
    end.

Definition persist : M Heap value := ret VUndefined.

End MockSyntheticEvent.

(** A [simulant] to run the mock with: the native event has the given type
    and the [key] of the options. *)
Definition sample_simulant (keyevent options : value) (h : Heap)
    : outcome loc * Heap :=
  let native := fresh (dom h) in
  (Return native,
   <[native := {[ "type" := keyevent; "key" := field h options "key" ]}]> h).

(** The heap [sample_simulant] leaves when a mock for the key event [a]
    going down is made on the sample objects. *)
Definition sample_native_heap : Heap :=
  (sample_simulant (VString "keydown") (VObject 1)
     (<[fresh (dom Sample.objects) := ∅]> Sample.objects)).2.

(** ** Focus key events *)

Section FocusRouting.

Variable C : Collaborators.

Lemma get_field h v p : nullish v = false → get h v p = Return (field h v p).
Proof. by destruct v. Qed.

Lemma record_last_seen event (s : state C) :
  nullish event = false →
  _recordLastSeenEvent C event s =
    (Return VUndefined,
     with_this C
       (set_lastEventSeen C
          (Some {| key := field (heap s) event "key";
                   type := field (heap s) event "type";
                   nativeEvent := field (heap s) event "nativeEvent" |})) s).
Proof.
  intros Hev. unfold _recordLastSeenEvent, bind, getProp, reading.
  by rewrite !get_field.
Qed.

Lemma record_last_seen_nullish event (s : state C) :
  nullish event = true → _recordLastSeenEvent C event s = (Throw TypeError, s).
Proof. by destruct event. Qed.

(** C1. When the classifier answers no for [focusTreeId], each of
    [handleKeydown], [handleKeypress] and [handleKeyup] returns
    [undefined] and leaves the state [recorded]: no call went to the
    focus-only strategy (the classifier is the only collaborator called),
    and [lastEventSeen] holds exactly the [key], [type] and [nativeEvent]
    read from the event.  An event is an object: the parameter pattern
    [{key, type, nativeEvent}] needs a value that is not [null] or
    [undefined]. *)
Theorem handle_outside_focus_records
    (event focusTreeId componentId options : value) (s : state C) :
  isFromFocusOnlyComponent C focusTreeId = false →
  nullish event = false →
  handleKeydown C event focusTreeId componentId options s
    = (Return VUndefined, recorded C event focusTreeId s) ∧
  handleKeypress C event focusTreeId componentId options s
    = (Return VUndefined, recorded C event focusTreeId s) ∧
  handleKeyup C event focusTreeId componentId options s
    = (Return VUndefined, recorded C event focusTreeId s) ∧
  Forall (λ c, is_focus_call c = false)
    (drop (length (calls s)) (calls (recorded C event focusTreeId s))).
Proof.
  intros Hno Hev.
  assert (Hrec : ∀ s0 : state C,
             (_recordLastSeenEvent C event ;; ret VUndefined) s0
             = (Return VUndefined,
                with_this C
                  (set_lastEventSeen C
                     (Some {| key := field (heap s0) event "key";
                              type := field (heap s0) event "type";
                              nativeEvent := field (heap s0) event "nativeEvent" |}))
                  s0)).
  { intros s0. unfold bind at 1. by rewrite record_last_seen. }
  repeat split.
  - unfold handleKeydown, bind at 1, call_isFromFocusOnlyComponent.
    rewrite Hno. by rewrite Hrec.
  - unfold handleKeypress, bind at 1, call_isFromFocusOnlyComponent.
    rewrite Hno. by rewrite Hrec.
  - unfold handleKeyup, bind at 1, call_isFromFocusOnlyComponent.
    rewrite Hno. by rewrite Hrec.
  - simpl. rewrite drop_app_length. by repeat constructor.
Qed.

Lemma call_focusOnly_forwards method args h (s s0 : state C) :
  this s = this s0 → heap s = h →
  forwards_to_focusOnly C method args h s0 (call_focusOnly C method args s).
Proof.
  intros E <-. unfold forwards_to_focusOnly, call_focusOnly. rewrite <- E.
  by destruct (FocusOnly_call C method args _ _) as [[r f] h].
Qed.

Lemma call_focusOnly_calls method args (s : state C) :
  calls (call_focusOnly C method args s).2
  = calls s ++ [CallFocusOnly method args].
Proof.
  unfold call_focusOnly.
  by destruct (FocusOnly_call C method args _ _) as [[r f] h].
Qed.

(** C2. When the classifier answers yes for [focusTreeId], each of
    [handleKeydown], [handleKeypress] and [handleKeyup] returns what the
    focus-only strategy's method of the same name returns (or throws) on
    the same four arguments, that call being the only one made to a
    strategy, and [lastEventSeen] is as it was. *)
Theorem handle_inside_focus_delegates
    (event focusTreeId componentId options : value) (s : state C) :
  isFromFocusOnlyComponent C focusTreeId = true →
  let args := [event; focusTreeId; componentId; options] in
  (forwards_to_focusOnly C HandleKeydown args (heap s) s
     (handleKeydown C event focusTreeId componentId options s) ∧
   calls (handleKeydown C event focusTreeId componentId options s).2
   = calls s ++ [CallClassifier focusTreeId; CallFocusOnly HandleKeydown args]) ∧
  (forwards_to_focusOnly C HandleKeypress args (heap s) s
     (handleKeypress C event focusTreeId componentId options s) ∧
   calls (handleKeypress C event focusTreeId componentId options s).2
   = calls s ++ [CallClassifier focusTreeId; CallFocusOnly HandleKeypress args]) ∧
  (forwards_to_focusOnly C HandleKeyup args (heap s) s
     (handleKeyup C event focusTreeId componentId options s) ∧
   calls (handleKeyup C event focusTreeId componentId options s).2
   = calls s ++ [CallClassifier focusTreeId; CallFocusOnly HandleKeyup args]).
Proof.
  intros Hyes args.
  unfold handleKeydown, handleKeypress, handleKeyup, bind,
    call_isFromFocusOnlyComponent.
  rewrite Hyes.
  split_and!;
    first [ by apply call_focusOnly_forwards
          | rewrite call_focusOnly_calls; cbn [calls]; by rewrite <- app_assoc ].
Qed.

End FocusRouting.

(** ** The history query *)

Section History.

Variable C : Collaborators.

(** With a [currentEvent] that can be read, the query is a comparison of
    its three fields and changes nothing. *)
Lemma history_of_present (key type : value) (s : state C) :
  nullish (currentEvent C s) = false →
  reactAppHistoryWithEvent C key type s =
    (Return
       (VString
          (if strict_equals (field (heap s) (currentEvent C s) "key") key
              && strict_equals (field (heap s) (currentEvent C s) "type") type
           then
             if truthy (field (heap s) (currentEvent C s) "handled")
             then "handled" else "seen"
           else "unseen")),
     s).
Proof.
  intros Hce.
  unfold reactAppHistoryWithEvent, bind, getProp, reading, ret.
  fold (currentEvent C s). rewrite (get_field _ _ "key" Hce).
  destruct (strict_equals _ key); [|done].
  rewrite (get_field _ _ "type" Hce).
  destruct (strict_equals _ type); [|done].
  rewrite (get_field _ _ "handled" Hce).
  by destruct (truthy _).
Qed.

(** C3, as the code has it.  When the focus-only strategy's
    [currentEvent] is [null] or [undefined], [reactAppHistoryWithEvent]
    returns nothing for any key and type: reading [currentEvent.key]
    throws a [TypeError], and the state is left as it was. *)
Theorem history_of_absent_currentEvent_throws (key type : value) (s : state C) :
  nullish (currentEvent C s) = true →
  reactAppHistoryWithEvent C key type s = (Throw TypeError, s).
Proof.
  intros Hce.
  unfold reactAppHistoryWithEvent, bind, getProp, reading.
  fold (currentEvent C s). by destruct (currentEvent C s).
Qed.

(** C4. With a [currentEvent] that is present, the query answers
    ['handled'] when its key and type are the ones asked for and its
    [handled] is true, ['seen'] when they are and [handled] is false,
    and ['unseen'] when the key or the type differs; it changes no
    state. *)
Theorem history_of_present_currentEvent (key type : value) (s : state C) :
  nullish (currentEvent C s) = false →
  let ce p := field (heap s) (currentEvent C s) p in
  (ce "key" = key → ce "type" = type → ce "handled" = VBool true →
   reactAppHistoryWithEvent C key type s = (Return (VString "handled"), s)) ∧
  (ce "key" = key → ce "type" = type → ce "handled" = VBool false →
   reactAppHistoryWithEvent C key type s = (Return (VString "seen"), s)) ∧
  (ce "key" ≠ key ∨ ce "type" ≠ type →
   reactAppHistoryWithEvent C key type s = (Return (VString "unseen"), s)).
Proof.
  intros Hce ce. rewrite (history_of_present _ _ _ Hce). subst ce.
  unfold strict_equals. cbv beta. split_and!.
  - intros Hk Ht Hh. rewrite Hk, Ht, Hh. by rewrite !bool_decide_eq_true_2.
  - intros Hk Ht Hh. rewrite Hk, Ht, Hh. by rewrite !bool_decide_eq_true_2.
  - intros [Hk | Ht].
    + by rewrite (bool_decide_eq_false_2 _ Hk).
    + rewrite (bool_decide_eq_false_2 _ Ht). by rewrite andb_false_r.
Qed.

End History.

(** ** Global key events *)

Section GlobalRouting.

Variable C : Collaborators.

Lemma call_global_forwards method args h (s s0 : state C) :
  this s = this s0 → heap s = h →
  forwards_to_global C method args h s0 (call_global C method args s).
Proof.
  intros E <-. unfold forwards_to_global, call_global. rewrite <- E.
  by destruct (Global_call C _ method args _ _) as [[r g] h].
Qed.

Lemma call_global_calls method args (s : state C) :
  calls (call_global C method args s).2 = calls s ++ [CallGlobal method args].
Proof.
  unfold call_global.
  by destruct (Global_call C _ method args _ _) as [[r g] h].
Qed.

(** C5. [handleGlobalKeydown], [handleGlobalKeypress] and
    [handleGlobalKeyup] return what the global strategy's [handleKeydown],
    [handleKeypress] and [handleKeyup] return (or throw) on the event, for
    every event; the one call they make is that one, so the classifier is
    not asked, and [lastEventSeen] and the focus-only strategy are as they
    were. *)
Theorem handleGlobal_forwards (event : value) (s : state C) :
  (forwards_to_global C HandleKeydown [event] (heap s) s
     (handleGlobalKeydown C event s) ∧
   calls (handleGlobalKeydown C event s).2
     = calls s ++ [CallGlobal HandleKeydown [event]]) ∧
  (forwards_to_global C HandleKeypress [event] (heap s) s
     (handleGlobalKeypress C event s) ∧
   calls (handleGlobalKeypress C event s).2
     = calls s ++ [CallGlobal HandleKeypress [event]]) ∧
  (forwards_to_global C HandleKeyup [event] (heap s) s
     (handleGlobalKeyup C event s) ∧
   calls (handleGlobalKeyup C event s).2
     = calls s ++ [CallGlobal HandleKeyup [event]]) ∧
  Forall (λ c, is_classifier_call c = false)
    (drop (length (calls s)) (calls (handleGlobalKeydown C event s).2) ++
     drop (length (calls s)) (calls (handleGlobalKeypress C event s).2) ++
     drop (length (calls s)) (calls (handleGlobalKeyup C event s).2)).
Proof.
  unfold handleGlobalKeydown, handleGlobalKeypress, handleGlobalKeyup.
  split_and!; try by (apply call_global_forwards || apply call_global_calls).
  rewrite !call_global_calls, !drop_app_length. by repeat constructor.
Qed.

End GlobalRouting.

(** ** Registration *)

Section Registration.

Variable C : Collaborators.

Lemma default_empty_object_defaulted (given : value) (h : Heap) :
  defaulted given h (default_empty_object given h).1
    (default_empty_object given h).2.
Proof.
  destruct given; simpl; try done.
  exists (fresh (dom h)). split_and!; try done.
  apply not_elem_of_dom, is_fresh.
Qed.

Lemma default_empty_object_preserves (given : value) (h : Heap) l o :
  h !! l = Some o → (default_empty_object given h).2 !! l = Some o.
Proof.
  intros Hl. destruct given; try done. cbn.
  rewrite lookup_insert_ne; [done|]. intros <-.
  pose proof (is_fresh (dom h)) as Hf. apply not_elem_of_dom in Hf. congruence.
Qed.

Lemma default_empty_object_extends (given : value) (h : Heap) :
  extends_with_empty_objects h (default_empty_object given h).2.
Proof.
  intros l. destruct given; try by left. cbn.
  destruct (decide (fresh (dom h) = l)) as [<-|Hne].
  - right. split; [apply not_elem_of_dom, is_fresh | apply lookup_insert_eq].
  - left. by apply lookup_insert_ne.
Qed.

Lemma extends_with_empty_objects_refl (h : Heap) :
  extends_with_empty_objects h h.
Proof. intros l. by left. Qed.

Lemma extends_with_empty_objects_trans (h0 h1 h2 : Heap) :
  extends_with_empty_objects h0 h1 → extends_with_empty_objects h1 h2 →
  extends_with_empty_objects h0 h2.
Proof.
  intros H01 H12 l.
  destruct (H01 l) as [E1|[N0 E1]], (H12 l) as [E2|[N1 E2]].
  - left. congruence.
  - right. split; congruence.
  - right. split; congruence.
  - congruence.
Qed.

(** C9. In [addHotKeys], [updateHotKeys], [addGlobalHotKeys] and
    [updateGlobalHotKeys], an [actionNameToKeyMap] or
    [actionNameToHandlersMap] that is omitted is replaced by a new empty
    object, first the key map and then the handlers map, and the call goes
    to the owning strategy with the resulting arguments; the outcome is
    the strategy's, so the manager adds no failure of its own. *)
Theorem registration_defaults_to_empty_maps
    (focusTreeId componentId actionNameToKeyMap actionNameToHandlersMap
     options eventOptions : value) (s : state C) :
  ∃ keyMap handlersMap h1 h2,
    defaulted actionNameToKeyMap (heap s) keyMap h1 ∧
    defaulted actionNameToHandlersMap h1 handlersMap h2 ∧
    forwards_to_focusOnly C AddHotKeys [keyMap; handlersMap; options] h2 s
      (addHotKeys C actionNameToKeyMap actionNameToHandlersMap options s) ∧
    forwards_to_focusOnly C UpdateHotKeys
      [focusTreeId; componentId; keyMap; handlersMap; options] h2 s
      (updateHotKeys C focusTreeId componentId actionNameToKeyMap
         actionNameToHandlersMap options s) ∧
    forwards_to_global C AddHotKeys
      [keyMap; handlersMap; options; eventOptions] h2 s
      (addGlobalHotKeys C actionNameToKeyMap actionNameToHandlersMap options
         eventOptions s) ∧
    forwards_to_global C UpdateHotKeys
      [componentId; keyMap; handlersMap; options; eventOptions] h2 s
      (updateGlobalHotKeys C componentId actionNameToKeyMap
         actionNameToHandlersMap options eventOptions s).
Proof.
  pose proof (default_empty_object_defaulted actionNameToKeyMap (heap s)) as D1.
  destruct (default_empty_object actionNameToKeyMap (heap s))
    as [keyMap h1] eqn:E1.
  pose proof (default_empty_object_defaulted actionNameToHandlersMap h1) as D2.
  destruct (default_empty_object actionNameToHandlersMap h1)
    as [handlersMap h2] eqn:E2.
  exists keyMap, handlersMap, h1, h2. split; [done|]. split; [done|].
  unfold addHotKeys, updateHotKeys, addGlobalHotKeys, updateGlobalHotKeys,
    bind, on_heap, total.
  rewrite E1. cbn [heap]. rewrite E2.
  split_and!;
    by (apply call_focusOnly_forwards || apply call_global_forwards).
Qed.

(** C10. [removeHotKeys] returns what the focus-only strategy's
    [removeHotKeys] returns on the same [focusTreeId] and [componentId],
    and [removeGlobalHotKeys] what the global strategy's [removeHotKeys]
    returns on the same [componentId]. *)
Theorem remove_returns_the_strategy_result
    (focusTreeId componentId : value) (s : state C) :
  (removeHotKeys C focusTreeId componentId s).1
    = (FocusOnly_call C RemoveHotKeys [focusTreeId; componentId]
         (focusOnlyEventStrategy (this s)) (heap s)).1.1 ∧
  (removeGlobalHotKeys C componentId s).1
    = (Global_call C (history_oracle C (this s)) RemoveHotKeys [componentId]
         (globalEventStrategy (this s)) (heap s)).1.1.
Proof.
  split.
  - by destruct (call_focusOnly_forwards C RemoveHotKeys
                   [focusTreeId; componentId] (heap s) s s eq_refl eq_refl).
  - by destruct (call_global_forwards C RemoveHotKeys [componentId]
                   (heap s) s s eq_refl eq_refl).
Qed.

End Registration.

(** ** The singleton *)

Section Singleton.

Variable C : Collaborators.

Lemma default_empty_object_not_nullish (v : value) (h : Heap) :
  v ≠ VNull → nullish (default_empty_object v h).1 = false.
Proof. by destruct v. Qed.

Lemma constructor_returns (self : ManagerRef) (configuration : value) (h : Heap) :
  configuration ≠ VNull →
  ∃ m h', new_KeyEventManager C self configuration h = (Return m, h') ∧
          freshly_constructed C self m.
Proof.
  intros Hc. unfold new_KeyEventManager, bind, total, reading, ret.
  pose proof (default_empty_object_not_nullish configuration h Hc) as Hn.
  destruct (default_empty_object configuration h) as [c h0]. simpl in Hn.
  rewrite (get_field h0 c "logger" Hn).
  set (given := field h0 c "logger").
  destruct (truthy given).
  - destruct (alloc _ h0) as [o1 h1].
    destruct (FocusOnly_new C o1 h1) as [f h2] eqn:Ef.
    destruct (alloc _ h2) as [o2 h3].
    destruct (Global_new C o2 self h3) as [g h4] eqn:Eg.
    eexists _, _. split; [done|]. split_and!; [done| |].
    + exists o1, h1. simpl. by rewrite Ef.
    + exists o2, h3. simpl. by rewrite Eg.
  - destruct (Logger_new C (VString "warn") h0) as [lg h0'].
    destruct (alloc _ h0') as [o1 h1].
    destruct (FocusOnly_new C o1 h1) as [f h2] eqn:Ef.
    destruct (alloc _ h2) as [o2 h3].
    destruct (Global_new C o2 self h3) as [g h4] eqn:Eg.
    eexists _, _. split; [done|]. split_and!; [done| |].
    + exists o1, h1. simpl. by rewrite Ef.
    + exists o2, h3. simpl. by rewrite Eg.
Qed.

Lemma constructor_null (self : ManagerRef) (h : Heap) :
  new_KeyEventManager C self VNull h = (Throw TypeError, h).
Proof. done. Qed.

(** With an instance in place, [getInstance] hands it out whatever the
    argument, and neither the static property nor any instance changes. *)
Lemma getInstance_existing (configuration : value) (w : World C) i :
  instance w = Some i →
  ∃ w', getInstance C configuration w = (Return i, w') ∧
        instance w' = Some i ∧ managers w' = managers w.
Proof.
  intros Hi. unfold getInstance.
  destruct (default_empty_object configuration (store w)) as [c h].
  rewrite Hi. by eexists.
Qed.

(** Without one, it makes one at a reference no instance has had. *)
Lemma getInstance_constructs (configuration : value) (w : World C) :
  instance w = None → configuration ≠ VNull →
  ∃ i m w', getInstance C configuration w = (Return i, w') ∧
            managers w !! i = None ∧
            instance w' = Some i ∧
            managers w' = <[i := m]> (managers w) ∧
            freshly_constructed C i m.
Proof.
  intros Hi Hc. unfold getInstance.
  pose proof (default_empty_object_not_nullish configuration (store w) Hc) as Hn.
  destruct (default_empty_object configuration (store w)) as [c h].
  simpl in Hn. rewrite Hi.
  destruct (constructor_returns (fresh (dom (managers w))) c h)
    as (m & h' & -> & Hm).
  { intros ->. done. }
  exists (fresh (dom (managers w))), m. eexists. split; [done|].
  split_and!; try done. apply not_elem_of_dom, is_fresh.
Qed.

Lemma well_formed_initial : well_formed C (initial_world C).
Proof. by intros i. Qed.

Lemma well_formed_getInstance (configuration : value) (w : World C) :
  well_formed C w → well_formed C (getInstance C configuration w).2.
Proof.
  intros Hw. unfold getInstance.
  destruct (default_empty_object configuration (store w)) as [c h].
  destruct (instance w) as [i|] eqn:Hi.
  - intros j. simpl. intros [= <-]. by apply Hw.
  - destruct (new_KeyEventManager C _ c h) as [[m|e] h'].
    + intros j. simpl. intros [= <-]. rewrite lookup_insert_eq. by eexists.
    + by intros j.
Qed.

Lemma well_formed_clear (w : World C) : well_formed C (clear C w).2.
Proof. by intros i. Qed.

Lemma well_formed_invoke {A} ref (method : M (state C) A) (w : World C) :
  well_formed C w → well_formed C (invoke C ref method w).2.
Proof.
  intros Hw. unfold invoke.
  destruct (managers w !! ref) as [m|] eqn:Hm; [|done].
  destruct (method _) as [r s]. intros j. simpl. intros Hj.
  destruct (decide (ref = j)) as [->|Hne].
  - rewrite lookup_insert_eq. by eexists.
  - rewrite lookup_insert_ne by done. by apply Hw.
Qed.

(** With an instance in place, all that [getInstance] does to the world
    is to evaluate the default of its parameter. *)
Lemma getInstance_existing_world (configuration : value) (w : World C) i :
  instance w = Some i →
  getInstance C configuration w
  = (Return i,
     {| instance := Some i; managers := managers w;
        store := (default_empty_object configuration (store w)).2 |}).
Proof.
  intros Hi. unfold getInstance.
  destruct (default_empty_object configuration (store w)) as [c h].
  by rewrite Hi.
Qed.

(** C6. Two calls of [getInstance] with nothing in between, on
    configurations [c1] and [c2], return the same instance, and that is an
    instance that exists: the one that was the singleton, or, if there was
    none, one that the first call constructs.  The second call constructs
    nothing whatever [c2] is: it leaves the static property and every
    instance as the first call left them, and every object of the heap as
    it was, the heap being that of the first call with at most the new
    empty object an omitted [c2] defaults to.  A configuration is an object
    or omitted: the constructor reads [configuration.logger], which [null]
    does not have. *)
Theorem getInstance_twice_same_instance (c1 c2 : value) (w : World C) :
  well_formed C w →
  c1 ≠ VNull →
  ∃ i w1 w2,
    getInstance C c1 w = (Return i, w1) ∧
    getInstance C c2 w1 = (Return i, w2) ∧
    is_Some (managers w1 !! i) ∧
    match instance w with
    | Some j => i = j ∧ managers w1 = managers w
    | None =>
        managers w !! i = None ∧
        ∃ m, managers w1 = <[i := m]> (managers w) ∧ freshly_constructed C i m
    end ∧
    instance w2 = Some i ∧
    instance w2 = instance w1 ∧
    managers w2 = managers w1 ∧
    store w2 = (default_empty_object c2 (store w1)).2 ∧
    extends_with_empty_objects (store w1) (store w2) ∧
    (∀ l o, store w1 !! l = Some o → store w2 !! l = Some o).
Proof.
  intros Hw Hc1.
  assert (∃ i w1,
            getInstance C c1 w = (Return i, w1) ∧ instance w1 = Some i ∧
            is_Some (managers w1 !! i) ∧
            match instance w with
            | Some j => i = j ∧ managers w1 = managers w
            | None =>
                managers w !! i = None ∧
                ∃ m, managers w1 = <[i := m]> (managers w) ∧
                     freshly_constructed C i m
            end)
    as (i & w1 & E1 & Hi1 & Hsome & Hfirst).
  { destruct (instance w) as [i|] eqn:Hi.
    - destruct (getInstance_existing c1 w i Hi) as (w1 & ? & ? & Hm).
      exists i, w1. split_and!; try done. rewrite Hm. by apply Hw.
    - destruct (getInstance_constructs c1 w Hi Hc1)
        as (i & m & w1 & ? & ? & ? & Hm & ?).
      exists i, w1. split_and!; try done.
      + rewrite Hm, lookup_insert_eq. by eexists.
      + by exists m. }
  exists i, w1. eexists.
  split; [exact E1|]. split; [by apply getInstance_existing_world|].
  cbn [instance managers store]. split_and!; try done.
  - apply default_empty_object_extends.
  - intros l o. apply default_empty_object_preserves.
Qed.


End Singleton.

(** ** What the manager writes *)

Section Invariant.

Variable C : Collaborators.

Lemma forwards_to_focusOnly_inv method args h (s : state C) res :
  forwards_to_focusOnly C method args h s res →
  focusOnly_changed_by_itself C s res.2 ∧
  lastEventSeen (this res.2) = lastEventSeen (this s).
Proof.
  intros (_ & Hf & _ & _ & _ & Hl). split; [|done].
  right. by exists method, args, h.
Qed.

Lemma forwards_to_global_inv method args h (s : state C) res :
  forwards_to_global C method args h s res →
  focusOnly_changed_by_itself C s res.2 ∧
  lastEventSeen (this res.2) = lastEventSeen (this s).
Proof. intros (_ & _ & _ & Hf & _ & Hl). split; [by left|done]. Qed.

Lemma history_reads_only (key type : value) (s : state C) :
  (reactAppHistoryWithEvent C key type s).2 = s.
Proof.
  destruct (nullish (currentEvent C s)) eqn:Hce.
  - unfold reactAppHistoryWithEvent, bind, getProp, reading.
    fold (currentEvent C s). by destruct (currentEvent C s).
  - by rewrite history_of_present.
Qed.

Lemma record_keeps_strategies event (s : state C) :
  focusOnlyEventStrategy (this (_recordLastSeenEvent C event s).2)
  = focusOnlyEventStrategy (this s) ∧
  heap (_recordLastSeenEvent C event s).2 = heap s.
Proof.
  destruct (nullish event) eqn:Hev.
  - by rewrite record_last_seen_nullish.
  - by rewrite record_last_seen.
Qed.

Local Ltac after_defaults :=
  unfold addHotKeys, updateHotKeys, addGlobalHotKeys, updateGlobalHotKeys,
    bind, on_heap, total;
  repeat match goal with
    | |- context [default_empty_object ?v ?h] =>
        destruct (default_empty_object v h) as [? ?]; cbn [heap]
    end.

Local Ltac after_defaults_in He :=
  unfold addHotKeys, updateHotKeys, addGlobalHotKeys, updateGlobalHotKeys,
    bind, on_heap, total;
  repeat match goal with
    | |- context [default_empty_object ?v ?h] =>
        destruct (default_empty_object v h) as [? ?]; cbn [heap];
        cbn [snd] in He
    end.

Local Ltac routed Hyes :=
  unfold handleKeydown, handleKeypress, handleKeyup, bind at 1,
    call_isFromFocusOnlyComponent;
  destruct (isFromFocusOnlyComponent C _) eqn:Hyes; cbn [negb].

(** Where [lastEventSeen] is written and where the focus-only strategy
    changes. *)
Lemma lastEventSeen_written_outside_focus_only (op : Operation) (s : state C) :
  focusOnly_changed_by_itself C s (perform C op s).2 ∧
  (if is_history_query op then (perform C op s).2 = s else True) ∧
  (if handles_outside_focus C op
   then focusOnlyEventStrategy (this (perform C op s).2)
        = focusOnlyEventStrategy (this s) ∧
        heap (perform C op s).2 = heap s
   else lastEventSeen (this (perform C op s).2) = lastEventSeen (this s)).
Proof.
  assert (Hforw : ∀ res,
             (∃ method args h, forwards_to_focusOnly C method args h s res) ∨
             (∃ method args h, forwards_to_global C method args h s res) →
             focusOnly_changed_by_itself C s res.2 ∧
             lastEventSeen (this res.2) = lastEventSeen (this s)).
  { intros res [(m & a & h & H)|(m & a & h & H)].
    - by eapply forwards_to_focusOnly_inv.
    - by eapply forwards_to_global_inv. }
  assert (Hout : ∀ event focusTreeId,
             let s' :=
               ((_recordLastSeenEvent C event ;; ret VUndefined)
                  {| this := this s; heap := heap s;
                     calls := calls s ++ [CallClassifier focusTreeId] |}).2 in
             focusOnlyEventStrategy (this s') = focusOnlyEventStrategy (this s) ∧
             heap s' = heap s).
  { intros event focusTreeId. unfold bind.
    pose proof (record_keeps_strategies event
                  {| this := this s; heap := heap s;
                     calls := calls s ++ [CallClassifier focusTreeId] |}) as Hk.
    by destruct (_recordLastSeenEvent C event _) as [[?|?] ?]. }
  destruct op; cbn [perform handles_outside_focus is_history_query].
  - destruct (Hforw (addHotKeys C actionNameToKeyMap actionNameToHandlersMap
                       options s)); [|done].
    left. after_defaults. eexists _, _, _. by apply call_focusOnly_forwards.
  - destruct (Hforw (updateHotKeys C focusTreeId componentId actionNameToKeyMap
                       actionNameToHandlersMap options s)); [|done].
    left. after_defaults. eexists _, _, _. by apply call_focusOnly_forwards.
  - destruct (Hforw (removeHotKeys C focusTreeId componentId s)); [|done].
    left. eexists _, _, _. by apply call_focusOnly_forwards.
  - routed Hyes.
    + destruct (Hforw (call_focusOnly C HandleKeydown
                         [event; focusTreeId; componentId; options]
                         {| this := this s; heap := heap s;
                            calls := calls s ++ [CallClassifier focusTreeId] |}));
        [|done].
      left. eexists _, _, _. by apply call_focusOnly_forwards.
    + destruct (Hout event focusTreeId) as [Hf Hh].
      split_and!; first [done | by left].
  - routed Hyes.
    + destruct (Hforw (call_focusOnly C HandleKeypress
                         [event; focusTreeId; componentId; options]
                         {| this := this s; heap := heap s;
                            calls := calls s ++ [CallClassifier focusTreeId] |}));
        [|done].
      left. eexists _, _, _. by apply call_focusOnly_forwards.
    + destruct (Hout event focusTreeId) as [Hf Hh].
      split_and!; first [done | by left].
  - routed Hyes.
    + destruct (Hforw (call_focusOnly C HandleKeyup
                         [event; focusTreeId; componentId; options]
                         {| this := this s; heap := heap s;
                            calls := calls s ++ [CallClassifier focusTreeId] |}));
        [|done].
      left. eexists _, _, _. by apply call_focusOnly_forwards.
    + destruct (Hout event focusTreeId) as [Hf Hh].
      split_and!; first [done | by left].
  - destruct (Hforw (addGlobalHotKeys C actionNameToKeyMap
                       actionNameToHandlersMap options eventOptions s)); [|done].
    right. after_defaults. eexists _, _, _. by apply call_global_forwards.
  - destruct (Hforw (updateGlobalHotKeys C componentId actionNameToKeyMap
                       actionNameToHandlersMap options eventOptions s)); [|done].
    right. after_defaults. eexists _, _, _. by apply call_global_forwards.
  - destruct (Hforw (removeGlobalHotKeys C componentId s)); [|done].
    right. eexists _, _, _. by apply call_global_forwards.
  - destruct (Hforw (handleGlobalKeydown C event s)); [|done].
    right. eexists _, _, _. by apply call_global_forwards.
  - destruct (Hforw (handleGlobalKeypress C event s)); [|done].
    right. eexists _, _, _. by apply call_global_forwards.
  - destruct (Hforw (handleGlobalKeyup C event s)); [|done].
    right. eexists _, _, _. by apply call_global_forwards.
  - rewrite history_reads_only. split_and!; try done. by left.
Qed.

Lemma record_keeps_manager event (s : state C) :
  focusOnlyEventStrategy (this (_recordLastSeenEvent C event s).2)
  = focusOnlyEventStrategy (this s) ∧
  globalEventStrategy (this (_recordLastSeenEvent C event s).2)
  = globalEventStrategy (this s) ∧
  logger (this (_recordLastSeenEvent C event s).2) = logger (this s) ∧
  heap (_recordLastSeenEvent C event s).2 = heap s.
Proof.
  destruct (nullish event) eqn:Hev.
  - by rewrite record_last_seen_nullish.
  - by rewrite record_last_seen.
Qed.

(** Strategies and heap change by one call of one strategy, on a heap
    whose objects the manager has left as they were. *)
Lemma operations_change_by_one_strategy_call (op : Operation) (s : state C) :
  changed_by_one_strategy_call C op s (perform C op s).
Proof.
  assert (Hhandle : ∀ method event focusTreeId componentId options,
    let res :=
      (let* fromFocusOnly := call_isFromFocusOnlyComponent C focusTreeId in
       if fromFocusOnly : bool then
         call_focusOnly C method [event; focusTreeId; componentId; options]
       else _recordLastSeenEvent C event ;; ret VUndefined) s in
    if negb (isFromFocusOnlyComponent C focusTreeId) then
      focusOnlyEventStrategy (this res.2) = focusOnlyEventStrategy (this s) ∧
      globalEventStrategy (this res.2) = globalEventStrategy (this s) ∧
      logger (this res.2) = logger (this s) ∧
      heap res.2 = heap s
    else
      ∃ method args h,
        extends_with_empty_objects (heap s) h ∧
        (forwards_to_focusOnly C method args h s res ∨
         forwards_to_global C method args h s res)).
  { intros method event focusTreeId componentId options res. subst res.
    unfold bind at 1, call_isFromFocusOnlyComponent.
    destruct (isFromFocusOnlyComponent C focusTreeId); cbn [negb].
    - eexists method, _, (heap s).
      split; [apply extends_with_empty_objects_refl|].
      left. by apply call_focusOnly_forwards.
    - unfold bind.
      pose proof (record_keeps_manager event
                    {| this := this s; heap := heap s;
                       calls := calls s ++ [CallClassifier focusTreeId] |}) as Hk.
      by destruct (_recordLastSeenEvent C event _) as [[?|?] ?]. }
  assert (Hdefaults : ∀ a b,
    extends_with_empty_objects (heap s)
      (default_empty_object b (default_empty_object a (heap s)).2).2).
  { intros a b. eapply extends_with_empty_objects_trans;
      apply default_empty_object_extends. }
  unfold changed_by_one_strategy_call.
  destruct op; cbn [perform handles_outside_focus is_history_query];
    try apply Hhandle.
  - pose proof (Hdefaults actionNameToKeyMap actionNameToHandlersMap) as He.
    after_defaults_in He. eexists AddHotKeys, _, _. split; [exact He|].
    left. by apply call_focusOnly_forwards.
  - pose proof (Hdefaults actionNameToKeyMap actionNameToHandlersMap) as He.
    after_defaults_in He. eexists UpdateHotKeys, _, _. split; [exact He|].
    left. by apply call_focusOnly_forwards.
  - eexists RemoveHotKeys, _, (heap s).
    split; [apply extends_with_empty_objects_refl|].
    left. by apply call_focusOnly_forwards.
  - pose proof (Hdefaults actionNameToKeyMap actionNameToHandlersMap) as He.
    after_defaults_in He. eexists AddHotKeys, _, _. split; [exact He|].
    right. by apply call_global_forwards.
  - pose proof (Hdefaults actionNameToKeyMap actionNameToHandlersMap) as He.
    after_defaults_in He. eexists UpdateHotKeys, _, _. split; [exact He|].
    right. by apply call_global_forwards.
  - eexists RemoveHotKeys, _, (heap s).
    split; [apply extends_with_empty_objects_refl|].
    right. by apply call_global_forwards.
  - eexists HandleKeydown, _, (heap s).
    split; [apply extends_with_empty_objects_refl|].
    right. by apply call_global_forwards.
  - eexists HandleKeypress, _, (heap s).
    split; [apply extends_with_empty_objects_refl|].
    right. by apply call_global_forwards.
  - eexists HandleKeyup, _, (heap s).
    split; [apply extends_with_empty_objects_refl|].
    right. by apply call_global_forwards.
  - apply history_reads_only.
Qed.

(** C8. Over every operation of the manager.  The manager writes
    neither a strategy nor an object of the heap: the history query changes
    nothing at all; a [handle*] call whose [focusTreeId] the classifier
    turns down leaves both strategies and the heap as they were; any other
    operation is one call of one strategy, run on the caller's heap with at
    most new empty objects added, and strategies and heap afterwards are
    what that call made of them, so that the focus-only strategy and the
    object its [currentEvent] refers to are changed by nothing but a
    strategy.  And [lastEventSeen] is as it was after every operation
    that is not a [handle*] call the classifier turns down. *)
Theorem manager_writes_only_lastEventSeen (op : Operation) (s : state C) :
  changed_by_one_strategy_call C op s (perform C op s) ∧
  focusOnly_changed_by_itself C s (perform C op s).2 ∧
  (if is_history_query op then (perform C op s).2 = s else True) ∧
  (if handles_outside_focus C op
   then focusOnlyEventStrategy (this (perform C op s).2)
        = focusOnlyEventStrategy (this s) ∧
        heap (perform C op s).2 = heap s
   else lastEventSeen (this (perform C op s).2) = lastEventSeen (this s)).
Proof.
  split.
  - apply operations_change_by_one_strategy_call.
  - apply lastEventSeen_written_outside_focus_only.
Qed.

End Invariant.

(** ** The manager on concrete inputs *)

Example sample_keydown_outside_focus :
  let r := handleKeydown Sample.collaborators (VObject 1) VUndefined VUndefined
             VUndefined (Sample.running VNull) in
  r.1 = Return VUndefined ∧
  lastEventSeen (this r.2)
  = Some {| key := VString "a"; type := VString "keydown";
            nativeEvent := VObject 2 |} ∧
  calls r.2 = [CallClassifier VUndefined].
Proof. vm_compute. done. Qed.

Example sample_keydown_inside_focus :
  let r := handleKeydown Sample.collaborators (VObject 1) (VNumber 0) (VNumber 0)
             VUndefined (Sample.running VNull) in
  r.1 = Return (VBool true) ∧
  lastEventSeen (this r.2) = None ∧
  calls r.2 = [CallClassifier (VNumber 0);
               CallFocusOnly HandleKeydown
                 [VObject 1; VNumber 0; VNumber 0; VUndefined]] ∧
  (reactAppHistoryWithEvent Sample.collaborators (VString "a")
     (VString "keydown") r.2).1 = Return (VString "handled").
Proof. vm_compute. done. Qed.

(** One life of the singleton: made, used outside any focus tree, cleared
    and made again. *)
Example sample_lifecycle :
  let C := Sample.collaborators in
  let run :=
    (let* first := getInstance C VUndefined in
     invoke C first (handleKeyup C (VObject 1) VUndefined VUndefined VUndefined) ;;
     let* again := getInstance C (VObject 1) in
     clear C ;;
     let* second := getInstance C VUndefined in
     ret (first, again, second)) in
  let w := (run {| instance := None; managers := ∅; store := Sample.objects |}).2 in
  (run {| instance := None; managers := ∅; store := Sample.objects |}).1
    = Return (1, 1, 2)%positive ∧
  (lastEventSeen <$> managers w !! 1%positive)
    = Some (Some {| key := VString "a"; type := VString "keydown";
                    nativeEvent := VObject 2 |}) ∧
  (lastEventSeen <$> managers w !! 2%positive) = Some None ∧
  instance w = Some 2%positive.
Proof. vm_compute. done. Qed.

Section Instances.

Local Abbreviation C := Sample.collaborators.

Lemma handle_outside_focus_records_witness :
  isFromFocusOnlyComponent C VUndefined = false ∧
  nullish (VObject 1) = false ∧
  handleKeydown C (VObject 1) VUndefined (VNumber 7) VUndefined
    (Sample.running VNull)
  = (Return VUndefined,
     recorded C (VObject 1) VUndefined (Sample.running VNull)).
Proof.
  split; [reflexivity|]. split; [reflexivity|].
  apply (handle_outside_focus_records C (VObject 1) VUndefined (VNumber 7)
           VUndefined (Sample.running VNull)); reflexivity.
Defined.

Lemma handle_inside_focus_delegates_witness :
  isFromFocusOnlyComponent C (VNumber 0) = true ∧
  forwards_to_focusOnly C HandleKeydown
    [VObject 1; VNumber 0; VNumber 7; VUndefined] Sample.objects
    (Sample.running VNull)
    (handleKeydown C (VObject 1) (VNumber 0) (VNumber 7) VUndefined
       (Sample.running VNull)).
Proof.
  split; [reflexivity|].
  apply (handle_inside_focus_delegates C (VObject 1) (VNumber 0) (VNumber 7)
           VUndefined (Sample.running VNull)); reflexivity.
Defined.

(** C3, as the claim has it, fails: with [currentEvent] absent the query
    for key [a] and type [keydown] does not return ['unseen'], it
    throws. *)
Lemma history_of_absent_currentEvent_not_unseen :
  currentEvent C (Sample.running VNull) = VNull ∧
  currentEvent C (Sample.running VUndefined) = VUndefined ∧
  (reactAppHistoryWithEvent C (VString "a") (VString "keydown")
     (Sample.running VNull)).1 ≠ Return (VString "unseen") ∧
  (reactAppHistoryWithEvent C (VString "a") (VString "keydown")
     (Sample.running VUndefined)).1 ≠ Return (VString "unseen") ∧
  (reactAppHistoryWithEvent C (VString "a") (VString "keydown")
     (Sample.running VNull)).1 = Throw TypeError.
Proof. split_and!; vm_compute; congruence. Qed.

Lemma history_of_absent_currentEvent_throws_witness :
  nullish (currentEvent C (Sample.running VUndefined)) = true ∧
  reactAppHistoryWithEvent C (VString "a") (VString "keydown")
    (Sample.running VUndefined)
  = (Throw TypeError, Sample.running VUndefined).
Proof.
  split; [reflexivity|].
  apply (history_of_absent_currentEvent_throws C (VString "a")
           (VString "keydown") (Sample.running VUndefined)); reflexivity.
Defined.

Lemma history_of_present_currentEvent_witness :
  nullish (currentEvent C (Sample.running (VObject 3))) = false ∧
  reactAppHistoryWithEvent C (VString "a") (VString "keydown")
    (Sample.running (VObject 3))
  = (Return (VString "handled"), Sample.running (VObject 3)) ∧
  reactAppHistoryWithEvent C (VString "a") (VString "keydown")
    (Sample.running (VObject 4))
  = (Return (VString "seen"), Sample.running (VObject 4)) ∧
  reactAppHistoryWithEvent C (VString "b") (VString "keydown")
    (Sample.running (VObject 3))
  = (Return (VString "unseen"), Sample.running (VObject 3)).
Proof.
  split; [reflexivity|]. split_and!.
  - apply (history_of_present_currentEvent C (VString "a") (VString "keydown")
             (Sample.running (VObject 3)) eq_refl); reflexivity.
  - apply (history_of_present_currentEvent C (VString "a") (VString "keydown")
             (Sample.running (VObject 4)) eq_refl); reflexivity.
  - apply (history_of_present_currentEvent C (VString "b") (VString "keydown")
             (Sample.running (VObject 3)) eq_refl).
    left. vm_compute. congruence.
Defined.

Lemma getInstance_twice_same_instance_witness :
  well_formed C (initial_world C) ∧
  VUndefined ≠ VNull ∧
  ∃ i w1 w2,
    getInstance C VUndefined (initial_world C) = (Return i, w1) ∧
    getInstance C (VObject 1) w1 = (Return i, w2) ∧
    is_Some (managers w1 !! i) ∧
    (managers (initial_world C) !! i = None ∧
     ∃ m, managers w1 = <[i := m]> (managers (initial_world C)) ∧
          freshly_constructed C i m) ∧
    instance w2 = Some i ∧
    instance w2 = instance w1 ∧
    managers w2 = managers w1 ∧
    store w2 = (default_empty_object (VObject 1) (store w1)).2 ∧
    extends_with_empty_objects (store w1) (store w2) ∧
    (∀ l o, store w1 !! l = Some o → store w2 !! l = Some o).
Proof.
  split; [apply well_formed_initial|]. split; [discriminate|].
  apply (getInstance_twice_same_instance C VUndefined (VObject 1)
           (initial_world C) (well_formed_initial C)).
  discriminate.
Defined.


End Instances.


(** ** More on events outside the focus tree *)

Section OutsideFocus.

Variable C : Collaborators.

(** The state after the classifier has been asked about [focusTreeId]. *)
Lemma outside_focus_unfold (op : Operation) (s : state C) :
  handles_outside_focus C op = true →
  ∃ event focusTreeId,
    handled_event op = Some event ∧
    perform C op s
    = (_recordLastSeenEvent C event ;; ret VUndefined)
        {| this := this s; heap := heap s;
           calls := calls s ++ [CallClassifier focusTreeId] |}.
Proof.
  destruct op; cbn [handles_outside_focus]; try done;
    intros Hno%negb_true_iff; exists event, focusTreeId; (split; [done|]);
    cbn [perform];
    unfold handleKeydown, handleKeypress, handleKeyup, bind at 1,
      call_isFromFocusOnlyComponent;
    by rewrite Hno.
Qed.

(** X1.  A [handle*] call that the classifier turns down and whose event is
    [null] or [undefined] throws a [TypeError]: the classifier has been
    asked, and the manager, [lastEventSeen] included, and the heap are as
    they were. *)
Theorem handle_outside_focus_without_event_throws
    (event focusTreeId componentId options : value) (s : state C) :
  isFromFocusOnlyComponent C focusTreeId = false →
  nullish event = true →
  let s' := {| this := this s; heap := heap s;
               calls := calls s ++ [CallClassifier focusTreeId] |} in
  handleKeydown C event focusTreeId componentId options s = (Throw TypeError, s') ∧
  handleKeypress C event focusTreeId componentId options s = (Throw TypeError, s') ∧
  handleKeyup C event focusTreeId componentId options s = (Throw TypeError, s').
Proof.
  intros Hno Hev s'.
  unfold handleKeydown, handleKeypress, handleKeyup, bind at 1 3 5,
    call_isFromFocusOnlyComponent.
  rewrite Hno. unfold bind. by rewrite record_last_seen_nullish.
Qed.

(** X2.  Of two [handle*] calls in a row that the classifier turns down, the
    second decides [lastEventSeen]: it holds the fields of the second event
    and nothing of the first, whether or not the first call had an event to
    record. *)
Theorem lastEventSeen_is_the_latest (op1 op2 : Operation) (event : value)
    (s : state C) :
  handles_outside_focus C op1 = true →
  handles_outside_focus C op2 = true →
  handled_event op2 = Some event →
  nullish event = false →
  lastEventSeen (this (perform C op2 (perform C op1 s).2).2)
  = Some {| key := field (heap s) event "key";
            type := field (heap s) event "type";
            nativeEvent := field (heap s) event "nativeEvent" |}.
Proof.
  intros H1 H2 He Hev.
  assert (Hh : heap (perform C op1 s).2 = heap s).
  { destruct (outside_focus_unfold op1 s H1) as (e1 & f1 & _ & ->).
    unfold bind.
    pose proof (record_keeps_strategies C e1
                  {| this := this s; heap := heap s;
                     calls := calls s ++ [CallClassifier f1] |}) as [_ Hk].
    by destruct (_recordLastSeenEvent C e1 _) as [[?|?] ?]. }
  destruct (outside_focus_unfold op2 (perform C op1 s).2 H2)
    as (e2 & f2 & He2 & ->).
  rewrite He in He2. injection He2 as <-.
  unfold bind. rewrite record_last_seen by done. cbn. by rewrite Hh.
Qed.

(** The answer of the history query depends on the focus-only strategy
    and the heap alone. *)
Lemma history_depends_on (key type : value) (s1 s2 : state C) :
  focusOnlyEventStrategy (this s1) = focusOnlyEventStrategy (this s2) →
  heap s1 = heap s2 →
  (reactAppHistoryWithEvent C key type s1).1
  = (reactAppHistoryWithEvent C key type s2).1.
Proof.
  intros Hf Hh.
  assert (Hce : currentEvent C s1 = currentEvent C s2)
    by (unfold currentEvent; by rewrite Hf).
  destruct (nullish (currentEvent C s2)) eqn:Hn.
  - unfold reactAppHistoryWithEvent, bind, getProp, reading.
    fold (currentEvent C s1) (currentEvent C s2). rewrite Hce.
    by destruct (currentEvent C s2).
  - rewrite !history_of_present by (by rewrite ?Hce). cbn. by rewrite Hce, Hh.
Qed.

(** X3.  Recording an event does not feed the history query: after a
    [handle*] call that the classifier turns down, every query answers as
    it did before the call. *)
Theorem recording_leaves_history (op : Operation) (key type : value)
    (s : state C) :
  handles_outside_focus C op = true →
  (reactAppHistoryWithEvent C key type (perform C op s).2).1
  = (reactAppHistoryWithEvent C key type s).1.
Proof.
  intros Hop. apply history_depends_on.
  - destruct (outside_focus_unfold op s Hop) as (e & f & _ & ->).
    unfold bind.
    pose proof (record_keeps_strategies C e
                  {| this := this s; heap := heap s;
                     calls := calls s ++ [CallClassifier f] |}) as [Hk _].
    by destruct (_recordLastSeenEvent C e _) as [[?|?] ?].
  - destruct (outside_focus_unfold op s Hop) as (e & f & _ & ->).
    unfold bind.
    pose proof (record_keeps_strategies C e
                  {| this := this s; heap := heap s;
                     calls := calls s ++ [CallClassifier f] |}) as [_ Hk].
    by destruct (_recordLastSeenEvent C e _) as [[?|?] ?].
Qed.

End OutsideFocus.

(** ** More on the history query *)

Section HistoryAnswers.

Variable C : Collaborators.

(** X4.  With a [currentEvent] that is present the three answers are told
    apart by the fields alone: ['handled'] exactly when key and type are
    the ones asked for and [handled] is truthy, ['seen'] exactly when they
    are and [handled] is falsy (a missing [handled] included), ['unseen']
    exactly when the key or the type differs. *)
Theorem history_answer_characterised (key type : value) (s : state C) :
  nullish (currentEvent C s) = false →
  let ce p := field (heap s) (currentEvent C s) p in
  let answer := (reactAppHistoryWithEvent C key type s).1 in
  (answer = Return (VString "handled")
   ↔ ce "key" = key ∧ ce "type" = type ∧ truthy (ce "handled") = true) ∧
  (answer = Return (VString "seen")
   ↔ ce "key" = key ∧ ce "type" = type ∧ truthy (ce "handled") = false) ∧
  (answer = Return (VString "unseen")
   ↔ ce "key" ≠ key ∨ ce "type" ≠ type).
Proof.
  intros Hce ce answer. subst answer ce.
  rewrite (history_of_present _ _ _ _ Hce). cbn [fst]. unfold strict_equals.
  repeat case_bool_decide; destruct (truthy _); cbn; intuition congruence.
Qed.

End HistoryAnswers.

(** ** What the operations call, and what they do not read *)

Section Discipline.

Variable C : Collaborators.

Lemma record_keeps_calls event (s : state C) :
  calls (_recordLastSeenEvent C event s).2 = calls s.
Proof.
  destruct (nullish event) eqn:Hev.
  - by rewrite record_last_seen_nullish.
  - by rewrite record_last_seen.
Qed.

(** X5.  Every operation adds to the trace of calls and adds what
    [call_shape] allows: a registration, update or removal calls its own
    strategy once and nothing else, a [handle*] asks the classifier and
    calls the focus-only strategy at most once after that, the global side
    never reaches the classifier or the focus-only strategy, and the
    history query calls nothing. *)
Theorem operations_call_their_own_strategy (op : Operation) (s : state C) :
  ∃ new, calls (perform C op s).2 = calls s ++ new ∧ call_shape op new.
Proof.
  assert (Hhandle : ∀ method event focusTreeId componentId options,
    let m :=
      (let* fromFocusOnly := call_isFromFocusOnlyComponent C focusTreeId in
       if fromFocusOnly : bool then
         call_focusOnly C method [event; focusTreeId; componentId; options]
       else _recordLastSeenEvent C event ;; ret VUndefined) in
    ∃ new, calls (m s).2 = calls s ++ new ∧
           (new = [CallClassifier focusTreeId] ∨
            ∃ method args, new = [CallClassifier focusTreeId;
                                  CallFocusOnly method args])).
  { intros method event focusTreeId componentId options m. subst m.
    unfold bind at 1, call_isFromFocusOnlyComponent.
    destruct (isFromFocusOnlyComponent C focusTreeId).
    - eexists. rewrite call_focusOnly_calls. cbn [calls].
      rewrite <- app_assoc. split; [done|]. right. by eexists _, _.
    - exists [CallClassifier focusTreeId]. split; [|by left].
      unfold bind.
      pose proof (record_keeps_calls event
                    {| this := this s; heap := heap s;
                       calls := calls s ++ [CallClassifier focusTreeId] |}) as Hk.
      by destruct (_recordLastSeenEvent C event _) as [[?|?] ?]. }
  destruct op; cbn [perform call_shape];
    try apply Hhandle;
    try (unfold addHotKeys, updateHotKeys, addGlobalHotKeys,
           updateGlobalHotKeys, removeHotKeys, removeGlobalHotKeys,
           handleGlobalKeydown, handleGlobalKeypress, handleGlobalKeyup,
           bind, on_heap, total;
         repeat match goal with
           | |- context [default_empty_object ?v ?h] =>
               destruct (default_empty_object v h) as [? ?]; cbn [heap]
           end;
         eexists;
         first [rewrite call_focusOnly_calls | rewrite call_global_calls];
         cbn [calls]; split; [done|]; by eexists _, _).
  exists []. rewrite history_reads_only. split; [|done]. by rewrite app_nil_r.
Qed.

Lemma history_oracle_depends_on (m1 m2 : KeyEventManager C) :
  focusOnlyEventStrategy m1 = focusOnlyEventStrategy m2 →
  history_oracle C m1 = history_oracle C m2.
Proof.
  intros Hf. unfold history_oracle.
  apply functional_extensionality; intros h.
  apply functional_extensionality; intros key.
  apply functional_extensionality; intros type.
  by apply history_depends_on.
Qed.

Lemma blind_ret {A} (a : A) : blind_to_lastEventSeen C (ret a).
Proof. by intros s1 s2 H. Qed.

Lemma blind_bind {A B} (m : M (state C) A) (k : A → M (state C) B) :
  blind_to_lastEventSeen C m →
  (∀ a, blind_to_lastEventSeen C (k a)) →
  blind_to_lastEventSeen C (bind m k).
Proof.
  intros Hm Hk s1 s2 H. unfold bind.
  destruct (Hm s1 s2 H) as [Hr Hs].
  destruct (m s1) as [[a1|e1] s1'], (m s2) as [[a2|e2] s2'];
    simpl in Hr, Hs; try done.
  - injection Hr as ->. by apply Hk.
  - by injection Hr as ->.
Qed.

Lemma blind_on_heap {A} (m : M Heap A) : blind_to_lastEventSeen C (on_heap C m).
Proof.
  intros s1 s2 (Hf & Hg & Hl & Hh & Hc). unfold on_heap. rewrite Hh.
  by destruct (m (heap s2)) as [r h].
Qed.

Lemma blind_classifier focusTreeId :
  blind_to_lastEventSeen C (call_isFromFocusOnlyComponent C focusTreeId).
Proof.
  intros s1 s2 (Hf & Hg & Hl & Hh & Hc). unfold call_isFromFocusOnlyComponent.
  cbn. by rewrite Hc.
Qed.

Lemma blind_call_focusOnly method args :
  blind_to_lastEventSeen C (call_focusOnly C method args).
Proof.
  intros s1 s2 (Hf & Hg & Hl & Hh & Hc). unfold call_focusOnly.
  rewrite Hf, Hh, Hc.
  by destruct (FocusOnly_call C method args _ _) as [[r f] h].
Qed.

Lemma blind_call_global method args :
  blind_to_lastEventSeen C (call_global C method args).
Proof.
  intros s1 s2 (Hf & Hg & Hl & Hh & Hc). unfold call_global.
  rewrite (history_oracle_depends_on _ _ Hf), Hg, Hh, Hc.
  by destruct (Global_call C _ method args _ _) as [[r g] h].
Qed.

Lemma blind_record event : blind_to_lastEventSeen C (_recordLastSeenEvent C event).
Proof.
  intros s1 s2 H. destruct (nullish event) eqn:Hev.
  - by rewrite !record_last_seen_nullish.
  - rewrite !record_last_seen by done. split; [done|].
    destruct H as (Hf & Hg & Hl & Hh & Hc). by repeat split.
Qed.

Lemma blind_history key type :
  blind_to_lastEventSeen C (reactAppHistoryWithEvent C key type).
Proof.
  intros s1 s2 H. rewrite !history_reads_only. split; [|done].
  destruct H as (Hf & _ & _ & Hh & _). by apply history_depends_on.
Qed.

(** X6.  No operation reads [lastEventSeen]: started from two states that
    differ in [lastEventSeen] at most, an operation gives the same outcome,
    makes the same calls, and leaves the same strategies, logger and
    heap. *)
Theorem lastEventSeen_is_never_read (op : Operation) (s1 s2 : state C) :
  same_but_lastEventSeen C s1 s2 →
  (perform C op s1).1 = (perform C op s2).1 ∧
  same_but_lastEventSeen C (perform C op s1).2 (perform C op s2).2.
Proof.
  revert s1 s2. change (blind_to_lastEventSeen C (perform C op)).
  destruct op; cbn [perform];
    unfold addHotKeys, updateHotKeys, removeHotKeys, handleKeydown,
      handleKeypress, handleKeyup, addGlobalHotKeys, updateGlobalHotKeys,
      removeGlobalHotKeys, handleGlobalKeydown, handleGlobalKeypress,
      handleGlobalKeyup;
    repeat first
      [ apply blind_history
      | apply blind_call_focusOnly
      | apply blind_call_global
      | apply blind_on_heap
      | apply blind_classifier
      | apply blind_record
      | apply blind_ret
      | apply blind_bind
      | intros [] ].
Qed.

End Discipline.

(** ** More on construction and the singleton *)

Section Construction.

Variable C : Collaborators.



(** X8.  [getInstance(null)] constructs nothing: without an instance it throws
    a [TypeError] and leaves the class as it was, no instance set; with an
    instance it returns that instance. *)
Theorem getInstance_null (w : World C) :
  match instance w with
  | None => getInstance C VNull w = (Throw TypeError, w)
  | Some i => (getInstance C VNull w).1 = Return i
  end.
Proof.
  destruct w as [[i|] ms h]; cbn [instance]; [done|].
  unfold getInstance. cbn [default_empty_object instance store managers].
  by rewrite constructor_null.
Qed.

(** X9.  Whatever the hosting layer does, in any order, the static [instance]
    is unset or one of the instances made. *)
Theorem singleton_stays_well_formed (actions : list Action) (w : World C) :
  well_formed C w → well_formed C (run C actions w).
Proof.
  unfold run. revert w.
  induction actions as [|a actions IH]; intros w Hw; [done|].
  cbn [foldl]. apply IH. destruct a; cbn [step].
  - by apply well_formed_getInstance.
  - apply well_formed_clear.
  - by apply well_formed_invoke.
Qed.

Lemma step_keeps_other_instances (a : Action) (w : World C) (i : ManagerRef) :
  is_Some (managers w !! i) → calls_on i a = false →
  managers (step C w a) !! i = managers w !! i.
Proof.
  intros Hi Ha. destruct a as [c| |ref op]; cbn [step].
  - unfold getInstance.
    destruct (default_empty_object c (store w)) as [c' h].
    destruct (instance w); [done|].
    destruct (new_KeyEventManager C _ c' h) as [[m|e] h']; [|done].
    cbn. apply lookup_insert_ne. intros Heq.
    apply elem_of_dom in Hi. rewrite <- Heq in Hi. by apply is_fresh in Hi.
  - done.
  - cbn in Ha. apply bool_decide_eq_false in Ha. unfold invoke.
    destruct (managers w !! ref); [|done].
    destruct (perform C op _) as [r s]. cbn. by apply lookup_insert_ne.
Qed.

(** X10.  An instance, once made, stays: [clear], [getInstance] and calls on
    other instances leave it in the world with its fields as they are; only
    a method called on the instance itself can change it. *)
Theorem instance_changes_only_by_its_own_calls
    (actions : list Action) (w : World C) (i : ManagerRef) :
  is_Some (managers w !! i) →
  Forall (λ a, calls_on i a = false) actions →
  managers (run C actions w) !! i = managers w !! i.
Proof.
  unfold run. revert w.
  induction actions as [|a actions IH]; intros w Hi Hall; [done|].
  apply Forall_cons in Hall as [Ha Hall]. cbn [foldl].
  pose proof (step_keeps_other_instances a w i Hi Ha) as Hstep.
  rewrite IH; [done| by rewrite Hstep | done].
Qed.

(** X11.  When both maps are omitted, the strategy gets two different new
    objects, neither of them on the heap before the call, and every object
    that was on the heap reaches the strategy as it was. *)
Theorem omitted_maps_are_two_new_objects
    (focusTreeId componentId options eventOptions : value) (s : state C) :
  ∃ l1 l2 h2,
    l1 ≠ l2 ∧ heap s !! l1 = None ∧ heap s !! l2 = None ∧
    h2 !! l1 = Some ∅ ∧ h2 !! l2 = Some ∅ ∧
    (∀ l o, heap s !! l = Some o → h2 !! l = Some o) ∧
    forwards_to_focusOnly C AddHotKeys [VObject l1; VObject l2; options] h2 s
      (addHotKeys C VUndefined VUndefined options s) ∧
    forwards_to_focusOnly C UpdateHotKeys
      [focusTreeId; componentId; VObject l1; VObject l2; options] h2 s
      (updateHotKeys C focusTreeId componentId VUndefined VUndefined options s) ∧
    forwards_to_global C AddHotKeys
      [VObject l1; VObject l2; options; eventOptions] h2 s
      (addGlobalHotKeys C VUndefined VUndefined options eventOptions s) ∧
    forwards_to_global C UpdateHotKeys
      [componentId; VObject l1; VObject l2; options; eventOptions] h2 s
      (updateGlobalHotKeys C componentId VUndefined VUndefined options
         eventOptions s).
Proof.
  set (l1 := fresh (dom (heap s))).
  set (h1 := <[l1 := ∅]> (heap s) : Heap).
  set (l2 := fresh (dom h1)).
  assert (H1 : heap s !! l1 = None) by apply not_elem_of_dom, is_fresh.
  assert (H2 : h1 !! l2 = None) by apply not_elem_of_dom, is_fresh.
  assert (Hne : l1 ≠ l2).
  { intros Heq. rewrite <- Heq in H2. unfold h1 in H2.
    by rewrite lookup_insert_eq in H2. }
  exists l1, l2, (<[l2 := ∅]> h1). split_and!; try done.
  - unfold h1 in H2. by rewrite lookup_insert_ne in H2.
  - rewrite lookup_insert_ne by done. apply lookup_insert_eq.
  - apply lookup_insert_eq.
  - intros l o Hl.
    assert (Hl1 : l1 ≠ l) by (intros ->; congruence).
    assert (Hl2 : l2 ≠ l).
    { intros ->. unfold h1 in H2. rewrite lookup_insert_ne in H2 by done.
      congruence. }
    unfold h1. by rewrite !lookup_insert_ne.
  - by apply call_focusOnly_forwards.
  - by apply call_focusOnly_forwards.
  - by apply call_global_forwards.
  - by apply call_global_forwards.
Qed.

End Construction.

(** ** MockSyntheticEvent *)

Section MockEvents.

Variable simulant : value → value → Heap → outcome loc * Heap.

Lemma mock_table (keyevent options : value) (h h' : Heap) (native : loc) :
  simulant keyevent options (<[fresh (dom h) := ∅]> h) = (Return native, h') →
  native ≠ fresh (dom h) →
  ∃ own : object,
    new_MockSyntheticEvent simulant keyevent options h
    = (Return (VObject (fresh (dom h))),
       <[fresh (dom h) :=
           default ∅ (h' !! native) ∪ <["nativeEvent" := VObject native]> own]>
         h') ∧
    ∀ p v, (h' !! native) ≫= (λ o : object, o !! p) = Some v →
           (default ∅ (h' !! native)
              ∪ <["nativeEvent" := VObject native]> own) !! p = Some v.
Proof.
  intros Hs Hne. unfold new_MockSyntheticEvent. rewrite Hs.
  unfold Object_assign, set_prop.
  set (this := fresh (dom h)) in *.
  exists (default ∅ (h' !! this)). split.
  - rewrite lookup_insert_ne by done. rewrite lookup_insert_eq. cbn.
    by rewrite insert_insert_eq.
  - intros p v Hp. apply lookup_union_Some_l.
    by destruct (h' !! native) as [o|].
Qed.

(** X12.  A mock event is a new object that mirrors its native event, an object
    other than the mock: every property of the native event reads the same
    on the mock, its [nativeEvent] is the native event unless the native
    event has a property of that name, and no other object is changed. *)
Theorem mock_mirrors_native_event
    (keyevent options : value) (h h' : Heap) (native : loc) :
  simulant keyevent options (<[fresh (dom h) := ∅]> h) = (Return native, h') →
  native ≠ fresh (dom h) →
  ∃ this h'',
    new_MockSyntheticEvent simulant keyevent options h
    = (Return (VObject this), h'') ∧
    h !! this = None ∧
    (∀ p v, (h' !! native) ≫= (λ o : object, o !! p) = Some v →
            field h'' (VObject this) p = v) ∧
    ((h' !! native) ≫= (λ o : object, o !! "nativeEvent") = None →
     field h'' (VObject this) "nativeEvent" = VObject native) ∧
    (∀ l, l ≠ this → h'' !! l = h' !! l).
Proof.
  intros Hs Hne. destruct (mock_table keyevent options h h' native Hs Hne)
    as (own & -> & Hmirror).
  eexists _, _. split; [done|]. split_and!.
  - apply not_elem_of_dom, is_fresh.
  - intros p v Hp. unfold field, get. rewrite lookup_insert_eq. cbn.
    by rewrite (Hmirror p v Hp).
  - intros Hnone. unfold field, get. rewrite lookup_insert_eq. cbn.
    rewrite lookup_union_r.
    + by rewrite lookup_insert_eq.
    + by destruct (h' !! native) as [o|].
  - intros l Hl. by rewrite lookup_insert_ne.
Qed.

Variable C : Collaborators.

(** X13.  A mock event handled outside the focus tree is recorded with the key
    and type of its native event and with the native event itself, when
    the native event has a key and a type and no [nativeEvent] of its
    own. *)
Theorem mock_event_is_recorded
    (keyevent options k t : value) (h h' : Heap) (native : loc)
    (m : KeyEventManager C) (made : list Call) :
  simulant keyevent options (<[fresh (dom h) := ∅]> h) = (Return native, h') →
  native ≠ fresh (dom h) →
  (h' !! native) ≫= (λ o : object, o !! "key") = Some k →
  (h' !! native) ≫= (λ o : object, o !! "type") = Some t →
  (h' !! native) ≫= (λ o : object, o !! "nativeEvent") = None →
  ∃ event h'',
    new_MockSyntheticEvent simulant keyevent options h = (Return event, h'') ∧
    ∀ op,
      handles_outside_focus C op = true →
      handled_event op = Some event →
      let res := perform C op {| this := m; heap := h''; calls := made |} in
      res.1 = Return VUndefined ∧
      lastEventSeen (this res.2)
      = Some {| key := k; type := t; nativeEvent := VObject native |}.
Proof.
  intros Hs Hne Hk Ht Hn.
  destruct (mock_table keyevent options h h' native Hs Hne)
    as (own & E & Hmirror).
  eexists _, _. split; [exact E|].
  intros op Hop Hev res. subst res.
  match goal with
  | |- context [perform C op ?s] =>
      destruct (outside_focus_unfold C op s Hop) as (e & f & He & ->)
  end.
  rewrite Hev in He. injection He as <-.
  unfold bind at 1. rewrite record_last_seen by done. cbn.
  unfold field, get. rewrite lookup_insert_eq. cbn.
  rewrite (Hmirror "key" k Hk), (Hmirror "type" t Ht).
  rewrite lookup_union_r by (by destruct (h' !! native) as [o|]).
  by rewrite lookup_insert_eq.
Qed.

End MockEvents.

(** ** The further statements on concrete inputs *)

Local Abbreviation C := Sample.collaborators.

Lemma sample_simulant_returns :
  sample_simulant (VString "keydown") (VObject 1)
    (<[fresh (dom Sample.objects) := ∅]> Sample.objects)
  = (Return 6%positive, sample_native_heap).
Proof.
  unfold sample_native_heap, sample_simulant. cbn [snd].
  f_equal.
Qed.

Lemma sample_native_is_not_the_mock : 6%positive ≠ fresh (dom Sample.objects).
Proof. vm_compute. discriminate. Qed.

Lemma sample_native_fields :
  (sample_native_heap !! 6%positive) ≫= (λ o : object, o !! "key")
  = Some (VString "a") ∧
  (sample_native_heap !! 6%positive) ≫= (λ o : object, o !! "type")
  = Some (VString "keydown") ∧
  (sample_native_heap !! 6%positive) ≫= (λ o : object, o !! "nativeEvent")
  = None.
Proof. split_and!; vm_compute; reflexivity. Qed.

Lemma handle_outside_focus_without_event_throws_witness :
  isFromFocusOnlyComponent C VUndefined = false ∧
  nullish VNull = true ∧
  handleKeyup C VNull VUndefined (VNumber 7) VUndefined (Sample.running VNull)
  = (Throw TypeError,
     {| this := Sample.manager VNull; heap := Sample.objects;
        calls := [CallClassifier VUndefined] |}).
Proof.
  split; [reflexivity|]. split; [reflexivity|].
  apply (handle_outside_focus_without_event_throws C VNull VUndefined
           (VNumber 7) VUndefined (Sample.running VNull)); reflexivity.
Defined.

Lemma lastEventSeen_is_the_latest_witness :
  handles_outside_focus C
    (Op_handleKeydown VNull VUndefined VUndefined VUndefined) = true ∧
  handles_outside_focus C
    (Op_handleKeyup (VObject 1) VUndefined VUndefined VUndefined) = true ∧
  nullish (VObject 1) = false ∧
  lastEventSeen
    (this
       (perform C (Op_handleKeyup (VObject 1) VUndefined VUndefined VUndefined)
          (perform C (Op_handleKeydown VNull VUndefined VUndefined VUndefined)
             (Sample.running VNull)).2).2)
  = Some {| key := field Sample.objects (VObject 1) "key";
            type := field Sample.objects (VObject 1) "type";
            nativeEvent := field Sample.objects (VObject 1) "nativeEvent" |}.
Proof.
  split; [reflexivity|]. split; [reflexivity|]. split; [reflexivity|].
  apply (lastEventSeen_is_the_latest C
           (Op_handleKeydown VNull VUndefined VUndefined VUndefined)
           (Op_handleKeyup (VObject 1) VUndefined VUndefined VUndefined)
           (VObject 1) (Sample.running VNull)); reflexivity.
Defined.

Lemma recording_leaves_history_witness :
  handles_outside_focus C
    (Op_handleKeydown (VObject 1) VUndefined VUndefined VUndefined) = true ∧
  (reactAppHistoryWithEvent C (VString "a") (VString "keydown")
     (perform C (Op_handleKeydown (VObject 1) VUndefined VUndefined VUndefined)
        (Sample.running (VObject 4))).2).1
  = (reactAppHistoryWithEvent C (VString "a") (VString "keydown")
       (Sample.running (VObject 4))).1.
Proof.
  split; [reflexivity|].
  apply (recording_leaves_history C
           (Op_handleKeydown (VObject 1) VUndefined VUndefined VUndefined)
           (VString "a") (VString "keydown") (Sample.running (VObject 4)));
    reflexivity.
Defined.

Lemma history_answer_characterised_witness :
  nullish (currentEvent C (Sample.running (VObject 4))) = false ∧
  ((reactAppHistoryWithEvent C (VString "a") (VString "keydown")
      (Sample.running (VObject 4))).1 = Return (VString "seen")
   ↔ field Sample.objects (VObject 4) "key" = VString "a" ∧
     field Sample.objects (VObject 4) "type" = VString "keydown" ∧
     truthy (field Sample.objects (VObject 4) "handled") = false).
Proof.
  split; [reflexivity|].
  apply (history_answer_characterised C (VString "a") (VString "keydown")
           (Sample.running (VObject 4))); reflexivity.
Defined.

Lemma lastEventSeen_is_never_read_witness :
  same_but_lastEventSeen C
    (with_this C
       (set_lastEventSeen C
          (Some {| key := VString "b"; type := VString "keyup";
                   nativeEvent := VNull |}))
       (Sample.running (VObject 3)))
    (Sample.running (VObject 3)) ∧
  (perform C (Op_handleGlobalKeydown (VObject 1))
     (with_this C
        (set_lastEventSeen C
           (Some {| key := VString "b"; type := VString "keyup";
                    nativeEvent := VNull |}))
        (Sample.running (VObject 3)))).1
  = (perform C (Op_handleGlobalKeydown (VObject 1))
       (Sample.running (VObject 3))).1.
Proof.
  assert (H : same_but_lastEventSeen C
                (with_this C
                   (set_lastEventSeen C
                      (Some {| key := VString "b"; type := VString "keyup";
                               nativeEvent := VNull |}))
                   (Sample.running (VObject 3)))
                (Sample.running (VObject 3))) by (repeat split).
  split; [exact H|].
  apply (lastEventSeen_is_never_read C (Op_handleGlobalKeydown (VObject 1))
           _ _ H).
Defined.


Lemma singleton_stays_well_formed_witness :
  well_formed C (initial_world C) ∧
  well_formed C
    (run C [Act_getInstance VUndefined; Act_clear; Act_getInstance (VObject 1)]
       (initial_world C)).
Proof.
  split; [apply well_formed_initial|].
  apply (singleton_stays_well_formed C
           [Act_getInstance VUndefined; Act_clear; Act_getInstance (VObject 1)]
           (initial_world C)).
  apply well_formed_initial.
Defined.

Lemma instance_changes_only_by_its_own_calls_witness :
  is_Some (managers sample_world !! 1%positive) ∧
  managers
    (run C
       [Act_clear; Act_getInstance VUndefined;
        Act_invoke 2%positive
          (Op_handleKeydown (VObject 1) VUndefined VUndefined VUndefined)]
       sample_world) !! 1%positive
  = managers sample_world !! 1%positive.
Proof.
  assert (H : is_Some (managers sample_world !! 1%positive)).
  { apply (well_formed_getInstance C VUndefined (initial_world C)
             (well_formed_initial C)).
    vm_compute. reflexivity. }
  split; [exact H|].
  apply (instance_changes_only_by_its_own_calls C
           [Act_clear; Act_getInstance VUndefined;
            Act_invoke 2%positive
              (Op_handleKeydown (VObject 1) VUndefined VUndefined VUndefined)]
           sample_world 1%positive H).
  repeat constructor.
Defined.

Lemma mock_mirrors_native_event_witness :
  sample_simulant (VString "keydown") (VObject 1)
    (<[fresh (dom Sample.objects) := ∅]> Sample.objects)
  = (Return 6%positive, sample_native_heap) ∧
  6%positive ≠ fresh (dom Sample.objects) ∧
  ∃ this h'',
    new_MockSyntheticEvent sample_simulant (VString "keydown") (VObject 1)
      Sample.objects
    = (Return (VObject this), h'') ∧
    Sample.objects !! this = None ∧
    (∀ p v, (sample_native_heap !! 6%positive) ≫= (λ o : object, o !! p) = Some v →
            field h'' (VObject this) p = v) ∧
    ((sample_native_heap !! 6%positive) ≫= (λ o : object, o !! "nativeEvent")
     = None →
     field h'' (VObject this) "nativeEvent" = VObject 6) ∧
    (∀ l, l ≠ this → h'' !! l = sample_native_heap !! l).
Proof.
  split; [exact sample_simulant_returns|].
  split; [exact sample_native_is_not_the_mock|].
  apply (mock_mirrors_native_event sample_simulant (VString "keydown")
           (VObject 1) Sample.objects sample_native_heap 6%positive
           sample_simulant_returns sample_native_is_not_the_mock).
Defined.

Lemma mock_event_is_recorded_witness :
  ∃ event h'',
    new_MockSyntheticEvent sample_simulant (VString "keydown") (VObject 1)
      Sample.objects
    = (Return event, h'') ∧
    ∀ op,
      handles_outside_focus C op = true →
      handled_event op = Some event →
      (perform C op
         {| this := Sample.manager VNull; heap := h''; calls := [] |}).1
      = Return VUndefined ∧
      lastEventSeen
        (this (perform C op
                 {| this := Sample.manager VNull; heap := h''; calls := [] |}).2)
      = Some {| key := VString "a"; type := VString "keydown";
                nativeEvent := VObject 6 |}.
Proof.
  apply (mock_event_is_recorded sample_simulant C (VString "keydown")
           (VObject 1) (VString "a") (VString "keydown") Sample.objects
           sample_native_heap 6%positive (Sample.manager VNull) []
           sample_simulant_returns sample_native_is_not_the_mock);
    apply sample_native_fields.
Defined.
